(** * Merchant portal: the load / validate / filter / aggregate pipeline

    A shallow embedding of [app.py] (the part after authentication):
    [load_transactions], the required-column check, the field coercions,
    the merchant filter, the daily [groupby]/[agg], the min/max date bounds
    and the date-range filter.

    Conventions of the embedding.
    - Amounts are exact rationals in lowest terms ([Qc]); a missing value
      (pandas NaN / NaT) is [None].
    - A calendar date is a (year, month, day) record ordered
      lexicographically, as [datetime.date] is; a [Timestamp] is a calendar
      date and a time of day.
    - A DataFrame is a list of column names and a list of rows; a row maps a
      column name to its cell.  The pipeline reads a column only after the
      required-column check has found it.
    - The pandas coercions of single cells ([astype(str)], [str.strip],
      [to_datetime], [to_numeric] with [errors="coerce"]) are parameters of
      the development. *)

From Stdlib Require Import List ZArith Lia Bool String Ascii.
From Stdlib Require Import QArith Qcanon.
From Stdlib Require Import Sorted Permutation.
Import ListNotations.

Local Open Scope string_scope.
Local Open Scope list_scope.
Local Open Scope Z_scope.

(* ------------------------------------------------------------------ *)
(** ** Calendar dates and timestamps *)

Record date := mkDate { year : Z; month : Z; day : Z }.

Record Timestamp := mkTimestamp { ts_date : date; ts_time : Z }.

(** [datetime.date] compares as the tuple (year, month, day). *)
Definition date_compare (a b : date) : comparison :=
  match year a ?= year b with
  | Eq => match month a ?= month b with
          | Eq => day a ?= day b
          | c => c
          end
  | c => c
  end.

Definition date_leb (a b : date) : bool :=
  match date_compare a b with Gt => false | _ => true end.

Definition ts_compare (a b : Timestamp) : comparison :=
  match date_compare (ts_date a) (ts_date b) with
  | Eq => ts_time a ?= ts_time b
  | c => c
  end.

Definition ts_leb (a b : Timestamp) : bool :=
  match ts_compare a b with Gt => false | _ => true end.

Definition ts_ltb (a b : Timestamp) : bool :=
  match ts_compare a b with Lt => true | _ => false end.

(** An integer as an amount. *)
Definition of_int (z : Z) : Qc := Q2Qc (inject_Z z).

(** [pd.to_datetime] of a [datetime.date]: that day at 00:00. *)
Definition midnight (d : date) : Timestamp := mkTimestamp d 0.

(** [Series.dt.date] / [Timestamp.date()] on one value; NaT stays NaT. *)
Definition dt_date (t : option Timestamp) : option date := option_map ts_date t.

(** Group keys are calendar dates or NaT; NaT sorts after every date. *)
Definition key_leb (a b : option date) : bool :=
  match a, b with
  | Some x, Some y => date_leb x y
  | Some _, None => true
  | None, Some _ => false
  | None, None => true
  end.

Definition date_eq_dec (a b : date) : {a = b} + {a <> b}.
Proof. decide equality; apply Z.eq_dec. Defined.

Definition key_eq_dec (a b : option date) : {a = b} + {a <> b}.
Proof. decide equality; apply date_eq_dec. Defined.

(* ------------------------------------------------------------------ *)
(** ** Sorting

    [sorted(...)] and [sort_values] are modelled by insertion sort; the
    lists sorted here have pairwise distinct keys, so every sorting
    algorithm returns the same list. *)

Section Sorting.
Context {A : Type} (leb : A -> A -> bool).

Fixpoint insert (x : A) (l : list A) : list A :=
  match l with
  | [] => [x]
  | y :: l' => if leb x y then x :: l else y :: insert x l'
  end.

Definition sort_by (l : list A) : list A := fold_right insert [] l.

(** The relation that a boolean comparison decides. *)
Definition rel_of : A -> A -> Prop := fun a b => leb a b = true.
End Sorting.

(* ------------------------------------------------------------------ *)
(** ** Strings *)

(** [sub in s] of Python: [sub] occurs somewhere in [s]. *)
Fixpoint contains (sub s : string) : bool :=
  String.prefix sub s ||
  match s with
  | EmptyString => false
  | String _ s' => contains sub s'
  end.

(** [sep.join(ls)] is [String.concat sep ls]. *)
Definition join (sep : string) (ls : list string) : string := String.concat sep ls.

Definition mem (s : string) (l : list string) : bool := existsb (String.eqb s) l.

(* ------------------------------------------------------------------ *)
(** ** Cells, rows and frames *)

(** What pandas does to a single cell.  [str_cell] stores a Python [str]
    in a cell; the other four are the coercions of the "Parse/clean" block,
    each total: with [errors="coerce"] an unparseable value becomes [None]. *)
Class Cells (cell : Type) := {
  str_cell    : string -> cell;
  astype_str  : cell -> string;
  str_strip   : string -> string;
  to_datetime : cell -> option Timestamp;
  to_numeric  : cell -> option Qc
}.

Definition Row (cell : Type) : Type := string -> cell.

Record DataFrame (cell : Type) : Type := mkDataFrame {
  columns : list string;
  rows    : list (Row cell)
}.
Arguments mkDataFrame {cell} _ _.
Arguments columns {cell} _.
Arguments rows {cell} _.

(** [df[name] = v] with a scalar [v]: every row gets [v] in column [name];
    a new column is appended to the column index. *)
Definition set_column {cell} (name : string) (v : cell) (df : DataFrame cell)
  : DataFrame cell :=
  {| columns := if mem name (columns df) then columns df else columns df ++ [name];
     rows := map (fun r c => if String.eqb c name then v else r c) (rows df) |}.

(* ------------------------------------------------------------------ *)
(** ** Reading files

    The only effect of the pipeline is [pd.read_csv].  The world is the
    (read-only) content of the file system, together with the log of the
    paths that were read.  A path whose read raises is [None] in [files]. *)

Record World (cell : Type) : Type := mkWorld {
  files : string -> option (DataFrame cell);
  reads : list string
}.
Arguments mkWorld {cell} _ _.
Arguments files {cell} _ _.
Arguments reads {cell} _.

Definition IO (cell A : Type) : Type := World cell -> A * World cell.

Definition ret {cell A} (a : A) : IO cell A := fun w => (a, w).

Definition bind {cell A B} (m : IO cell A) (k : A -> IO cell B) : IO cell B :=
  fun w => let (a, w') := m w in k a w'.

Notation "x <- m ;; k" := (bind m (fun x => k))
  (at level 61, m at next level, right associativity).

Definition read_csv {cell} (p : string) : IO cell (option (DataFrame cell)) :=
  fun w => (files w p, mkWorld (files w) (reads w ++ [p])).

(* ------------------------------------------------------------------ *)
(** ** Outcomes of one run of the script *)

Inductive Level := Error | Warning.

Record DailyRow := mkDaily {
  date_   : Timestamp;
  revenue : Qc;
  orders  : Z;
  aov     : option Qc
}.

(** The exceptions that the script lets escape. *)
Inductive Exception :=
| FileNotFoundError (msg : string)   (* raised by [load_transactions] *)
| ValueError_NaT.                    (* NaT where a calendar date is needed *)

Inductive Outcome :=
| Raised (exn : Exception)                    (* an exception nobody catches *)
| Stopped (level : Level) (msg : string)      (* st.error / st.warning, then st.stop() *)
| Rendered (daily : list DailyRow).           (* the dashboard is drawn from [daily] *)

(* ------------------------------------------------------------------ *)
(** ** The script *)

Definition MERCHANT := "Merchant Number - Business Name".
Definition DATE     := "Transaction Date".
Definition AMOUNT   := "Settle Amount".

Definition candidates : list string :=
  ["sample_merchant_transactions.csv"; "data/sample_merchant_transactions.csv"].

Definition not_found_msg : string :=
  ("CSV not found. Place it at repo root as 'sample_merchant_transactions.csv' "
   ++ "or under 'data/' as 'data/sample_merchant_transactions.csv'.")%string.

(** A row after the "Parse/clean" block. *)
Record TxRow (cell : Type) : Type := mkTx {
  merchant         : string;
  transaction_date : option Timestamp;
  settle_amount    : option Qc;
  other            : Row cell
}.
Arguments mkTx {cell} _ _ _ _.
Arguments merchant {cell} _.
Arguments transaction_date {cell} _.
Arguments settle_amount {cell} _.
Arguments other {cell} _.

Section Script.
Context {cell : Type} `{Cells cell}.

(** The [for p in (...)] loop of [load_transactions]: the first path that
    reads wins and the frame is tagged with it; a failed read is skipped. *)
Fixpoint load_loop (ps : list string) : IO cell (option (DataFrame cell)) :=
  match ps with
  | [] => ret None
  | p :: ps' =>
      r <- read_csv p ;;
      match r with
      | Some df => ret (Some (set_column "__path__" (str_cell p) df))
      | None => load_loop ps'
      end
  end.

Definition load_transactions : IO cell (Exception + DataFrame cell) :=
  r <- load_loop candidates ;;
  match r with
  | Some df => ret (inr df)
  | None => ret (inl (FileNotFoundError not_found_msg))
  end.

(** Required columns. *)
Definition needed : list string := [MERCHANT; DATE; AMOUNT].

Definition missing (tx : DataFrame cell) : list string :=
  filter (fun n => negb (mem n (columns tx))) needed.

Definition sorted : list string -> list string := sort_by String.leb.

Definition missing_msg (miss : list string) : string :=
  ("Missing required column(s) in CSV: " ++ join ", " (sorted miss))%string.

Definition validate (tx : DataFrame cell) : string + DataFrame cell :=
  match missing tx with
  | [] => inr tx
  | miss => inl (missing_msg miss)
  end.

(** Parse/clean: the three columns are coerced cell by cell. *)
Definition clean_row (r : Row cell) : TxRow cell :=
  {| merchant := str_strip (astype_str (r MERCHANT));
     transaction_date := to_datetime (r DATE);
     settle_amount := to_numeric (r AMOUNT);
     other := r |}.

Definition clean (tx : DataFrame cell) : list (TxRow cell) :=
  map clean_row (rows tx).

(** [tx[tx[MERCHANT] == merchant_id]] *)
Definition merchant_tx (tx : list (TxRow cell)) (merchant_id : string)
  : list (TxRow cell) :=
  filter (fun r => String.eqb (merchant r) merchant_id) tx.

Definition no_tx_msg (merchant_id : string) : string :=
  ("No transactions found for merchant: " ++ merchant_id ++ String "010"
   ("Check that the Secrets 'merchant_id' matches the CSV values in "
    ++ "'Merchant Number - Business Name' (exact case & spaces)."))%string.

(** *** Aggregate to daily metrics *)

(** ["sum"]: NaN is skipped, the empty sum is 0. *)
Definition agg_sum (xs : list (option Qc)) : Qc :=
  fold_right (fun x acc => match x with Some v => (v + acc)%Qc | None => acc end)
             (of_int 0) xs.

(** ["count"]: the number of values that are not NaN. *)
Definition agg_count (xs : list (option Qc)) : Z :=
  Z.of_nat (List.length (filter (fun x => match x with Some _ => true | None => false end) xs)).

Definition group_key (r : TxRow cell) : option date := dt_date (transaction_date r).

(** The group keys of [groupby(..., dropna=False)]: the distinct keys,
    sorted, NaT included (last). *)
Definition group_keys (mtx : list (TxRow cell)) : list (option date) :=
  sort_by key_leb (nodup key_eq_dec (map group_key mtx)).

Definition group (mtx : list (TxRow cell)) (k : option date) : list (TxRow cell) :=
  filter (fun r => if key_eq_dec (group_key r) k then true else false) mtx.

(** [.groupby(...).agg(revenue=(AMOUNT, "sum"), orders=(AMOUNT, "count"))
     .reset_index().rename(...)]: one row per group key. *)
Definition groupby_agg (mtx : list (TxRow cell)) : list (option date * Qc * Z) :=
  map (fun k => let g := map settle_amount (group mtx k) in
                (k, agg_sum g, agg_count g))
      (group_keys mtx).

(** [daily["date"] = pd.to_datetime(daily["date"], errors="coerce")] *)
Definition dates_to_datetime (l : list (option date * Qc * Z))
  : list (option Timestamp * Qc * Z) :=
  map (fun '(k, r, o) => (option_map midnight k, r, o)) l.

(** [.dropna(subset=["date"])] *)
Fixpoint dropna (l : list (option Timestamp * Qc * Z)) : list (Timestamp * Qc * Z) :=
  match l with
  | [] => []
  | (Some t, r, o) :: l' => (t, r, o) :: dropna l'
  | (None, _, _) :: l' => dropna l'
  end.

(** [.sort_values("date")] *)
Definition sort_values (l : list (Timestamp * Qc * Z)) : list (Timestamp * Qc * Z) :=
  sort_by (fun a b => ts_leb (fst (fst a)) (fst (fst b))) l.

(** [revenue / orders], element by element.  The division is evaluated in
    every row; a zero divisor raises nothing and gives a non-finite value,
    which is [None] here. *)
Definition truediv (x : Qc) (n : Z) : option Qc :=
  if n =? 0 then None else Some (x / of_int n)%Qc.

(** [Series.where(cond)]: the value where [cond] holds, NaN elsewhere. *)
Definition where_ (v : option Qc) (cond : bool) : option Qc :=
  if cond then v else None.

Definition with_aov (x : Timestamp * Qc * Z) : DailyRow :=
  let '(t, r, o) := x in
  mkDaily t r o (where_ (truediv r o) (0 <? o)).

Definition daily (mtx : list (TxRow cell)) : list DailyRow :=
  map with_aov (sort_values (dropna (dates_to_datetime (groupby_agg mtx)))).

(** *** Filters *)

(** [Series.min()] / [Series.max()]; NaT on an empty series. *)
Definition series_min (l : list Timestamp) : option Timestamp :=
  fold_right (fun t acc => match acc with
                           | None => Some t
                           | Some m => Some (if ts_leb t m then t else m)
                           end) None l.

Definition series_max (l : list Timestamp) : option Timestamp :=
  fold_right (fun t acc => match acc with
                           | None => Some t
                           | Some m => Some (if ts_leb m t then t else m)
                           end) None l.

Definition min_date (d : list DailyRow) : option date :=
  dt_date (series_min (map date_ d)).

Definition max_date (d : list DailyRow) : option date :=
  dt_date (series_max (map date_ d)).

(** [daily[(date >= start_date) & (date <= end_date)]] *)
Definition in_range (start_date end_date : date) (r : DailyRow) : bool :=
  date_leb start_date (ts_date (date_ r)) && date_leb (ts_date (date_ r)) end_date.

Definition range_filter (d : list DailyRow) (start_date end_date : date)
  : list DailyRow :=
  filter (in_range start_date end_date) d.

(** The part of the script after the merchant filter.  [date_input] is the
    operator's choice in the date widget, given its bounds.  Over an empty
    [daily] the minimum and the maximum are NaT, which is no calendar date:
    the bounds of the widget cannot be formed and the run ends in an
    exception that nothing catches. *)
Definition dashboard (mtx : list (TxRow cell))
           (date_input : date -> date -> date * date) : Outcome :=
  let d := daily mtx in
  match min_date d, max_date d with
  | Some lo, Some hi =>
      let (start_date, end_date) := date_input lo hi in
      Rendered (range_filter d start_date end_date)
  | _, _ => Raised ValueError_NaT
  end.

(** The script from [load_transactions] on, for the merchant identifier
    that the session supplies. *)
Definition app (merchant_id : string) (date_input : date -> date -> date * date)
  : IO cell Outcome :=
  r <- load_transactions ;;
  match r with
  | inl exn => ret (Raised exn)
  | inr tx =>
      match validate tx with
      | inl msg => ret (Stopped Error msg)
      | inr tx =>
          let mtx := merchant_tx (clean tx) merchant_id in
          match mtx with
          | [] => ret (Stopped Warning (no_tx_msg merchant_id))
          | _ => ret (dashboard mtx date_input)
          end
      end
  end.

End Script.

(* ------------------------------------------------------------------ *)
(** ** Predicates used in the statements *)

(** The orders that [date_compare] and [ts_compare] decide. *)
Definition date_lt (a b : date) : Prop :=
  year a < year b \/
  (year a = year b /\ (month a < month b \/ (month a = month b /\ day a < day b))).

Definition date_same (a b : date) : Prop :=
  year a = year b /\ month a = month b /\ day a = day b.

Definition ts_lt (a b : Timestamp) : Prop :=
  date_lt (ts_date a) (ts_date b) \/
  (date_same (ts_date a) (ts_date b) /\ ts_time a < ts_time b).

Section LoaderSpec.
Context {cell : Type} `{Cells cell}.

(** What one run of the loop over [ps] did in world [w]: it read the paths
    [attempted], in this order, and returned [r]. *)
Definition first_readable (w : World cell) (ps : list string)
           (r : option (DataFrame cell)) (attempted : list string) : Prop :=
  match r with
  | Some tx =>
      exists pre p post df,
        ps = pre ++ p :: post /\
        Forall (fun q => files w q = None) pre /\
        files w p = Some df /\
        tx = set_column "__path__" (str_cell p) df /\
        attempted = pre ++ [p]
  | None =>
      Forall (fun q => files w q = None) ps /\ attempted = ps
  end.
End LoaderSpec.


(* ------------------------------------------------------------------ *)
(** ** Auxiliary functions of the proofs *)

(** The values of a list that are present, in order. *)
Fixpoint somes {A : Type} (l : list (option A)) : list A :=
  match l with
  | [] => []
  | Some a :: l' => a :: somes l'
  | None :: l' => somes l'
  end.

(** The record that [daily] holds for calendar date [d]. *)
Definition day_record {cell : Type} (mtx : list (TxRow cell)) (d : date) : DailyRow :=
  let g := map settle_amount (group mtx (Some d)) in
  mkDaily (midnight d) (agg_sum g) (agg_count g)
          (where_ (truediv (agg_sum g) (agg_count g)) (0 <? agg_count g)).

(** The calendar dates that occur in [mtx], ascending. *)
Definition dates {cell : Type} (mtx : list (TxRow cell)) : list date :=
  somes (group_keys mtx).


Definition has_date {cell : Type} (r : TxRow cell) : bool :=
  match transaction_date r with Some _ => true | None => false end.

Definition on_date {cell : Type} (d : date) (r : TxRow cell) : bool :=
  if key_eq_dec (group_key r) (Some d) then true else false.

Definition has_amount {cell : Type} (r : TxRow cell) : bool :=
  match settle_amount r with Some _ => true | None => false end.


(** [l1] is [l2] with some elements left out, the order kept. *)
Inductive subseq {A : Type} : list A -> list A -> Prop :=
| subseq_nil : subseq [] []
| subseq_skip x l1 l2 : subseq l1 l2 -> subseq l1 (x :: l2)
| subseq_keep x l1 l2 : subseq l1 l2 -> subseq (x :: l1) (x :: l2).

(* ------------------------------------------------------------------ *)
(** ** A concrete table format

    An instance of [Cells] on which the script can be run: cells are text,
    a date is read in the form YYYY-MM-DD, an amount as a decimal integer,
    and stripping removes blanks at both ends.  Anything else is
    unparseable. *)

Definition digit (c : ascii) : option Z :=
  let n := Z.of_nat (nat_of_ascii c) in
  if (48 <=? n) && (n <=? 57) then Some (n - 48) else None.

Fixpoint digits (s : string) (acc : Z) : option Z :=
  match s with
  | EmptyString => Some acc
  | String c s' =>
      match digit c with
      | Some v => digits s' (10 * acc + v)
      | None => None
      end
  end.

Definition number (s : string) : option Z :=
  match s with
  | EmptyString => None
  | _ => digits s 0
  end.

Definition iso_date (s : string) : option Timestamp :=
  if negb (Nat.eqb (String.length s) 10) then None else
  match number (substring 0 4 s), number (substring 5 2 s), number (substring 8 2 s) with
  | Some y, Some m, Some d =>
      if String.eqb (substring 4 1 s) "-" && String.eqb (substring 7 1 s) "-"
         && (1 <=? m) && (m <=? 12) && (1 <=? d) && (d <=? 31)
      then Some (midnight (mkDate y m d))
      else None
  | _, _, _ => None
  end.

Fixpoint lstrip (s : string) : string :=
  match s with
  | String " " s' => lstrip s'
  | _ => s
  end.

Fixpoint rev_string (s acc : string) : string :=
  match s with
  | EmptyString => acc
  | String c s' => rev_string s' (String c acc)
  end.

Definition strip (s : string) : string :=
  rev_string (lstrip (rev_string (lstrip s) "")) "".

#[export] Instance text_cells : Cells string := {|
  str_cell := fun s => s;
  astype_str := fun s => s;
  str_strip := strip;
  to_datetime := iso_date;
  to_numeric := fun s => option_map of_int (number s)
|}.

(** A CSV file as a frame: a header and lines of cells. *)
Definition row_of (header : list string) (line : list string) : Row string :=
  fun c => match find (fun p => String.eqb (fst p) c) (combine header line) with
           | Some p => snd p
           | None => ""
           end.

Definition csv (header : list string) (lines : list (list string)) : DataFrame string :=
  mkDataFrame header (map (row_of header) lines).

(** A world with one file, at the first candidate location. *)
Definition one_file (df : DataFrame string) : World string :=
  mkWorld (fun p => if String.eqb p "sample_merchant_transactions.csv"
                    then Some df else None) [].

Definition header3 : list string := [MERCHANT; DATE; AMOUNT].

(** The operator keeps the whole range. *)
Definition whole_range (lo hi : date) : date * date := (lo, hi).

Definition jan (d : Z) : date := mkDate 2024 1 d.

(** The three rows of the spec's scenario, already parsed. *)
Definition scenario {cell : Type} (o1 o2 o3 : Row cell) : list (TxRow cell) :=
  [ mkTx "M001" (Some (midnight (jan 1))) (Some (of_int 100)) o1;
    mkTx "M001" (Some (midnight (jan 1))) (Some (of_int 50)) o2;
    mkTx "M001" (Some (midnight (jan 2))) (Some (of_int 0)) o3 ].

(** One row of merchant M001 whose amount does not parse. *)
Definition csv_null_amount : DataFrame string :=
  csv header3 [["M001"; "2024-01-01"; "n/a"]].

(** One row of merchant M001 whose date does not parse. *)
Definition csv_bad_date : DataFrame string :=
  csv header3 [["M001"; "not a date"; "10"]].

(** A table of another merchant, and a table without the amount column. *)
Definition csv_other_merchant : DataFrame string :=
  csv header3 [["M002"; "2024-01-01"; "10"]].

Definition csv_no_amount : DataFrame string :=
  csv [MERCHANT; DATE] [["M001"; "2024-01-01"]].

Definition csv_scenario : DataFrame string :=
  csv header3 [["M001"; "2024-01-01"; "100"];
               [" M001 "; "2024-01-01"; "50"];
               ["M002"; "2024-01-01"; "7"];
               ["M001"; "2024-01-02"; "0"];
               ["M001"; "soon"; "3"]].

(** The scenario and the two one-row tables as merchant tables. *)
Definition blank : Row unit := fun _ => tt.

Definition scenario_rows : list (TxRow unit) := scenario blank blank blank.

Definition null_amount_rows : list (TxRow string) :=
  merchant_tx (clean csv_null_amount) "M001".

Definition bad_date_rows : list (TxRow string) :=
  merchant_tx (clean csv_bad_date) "M001".

(* ------------------------------------------------------------------ *)
(** ** Identity configuration and session

    The part of the script before [load_transactions].  The Secrets section
    [users] is a dict from user names to user records, a user record a dict
    from field names to text.  A dict is the list of its items in insertion
    order, looked up from the front.  [str.casefold] is a parameter. *)

Definition Dict (V : Type) : Type := list (string * V).

(** [k in d] and [d[k]] in one: [None] where Python raises [KeyError]. *)
Definition dict_get {V : Type} (k : string) (d : Dict V) : option V :=
  option_map snd (find (fun kv => String.eqb (fst kv) k) d).

Definition keys {V : Type} (d : Dict V) : list string := map fst d.

Definition UserRecord : Type := Dict string.

(** [str(x)] of a text or of [None]. *)
Definition py_str (x : option string) : string :=
  match x with Some s => s | None => "None" end.

(** What the session holds after [authenticator.login]:
    [authentication_status] is [True], [False] or [None]. *)
Record Session := mkSession {
  authentication_status : option bool;
  name_ : option string;
  username : option string
}.

(** The credentials entry built for one user. *)
Record Credential := mkCredential {
  cred_name : string;
  cred_email : string;
  cred_password : string
}.

(** How a run of the whole script ends. *)
Inductive Page :=
| Key_error (key : string)        (* KeyError while the credentials are built *)
| Login_error (msg : string)      (* st.error(...); st.stop() *)
| Login_info (msg : string)       (* st.info(...); st.stop() *)
| Mapping_error (msg : string)    (* st.error(...); st.stop() *)
| Portal (o : Outcome).           (* the logged-in part ran *)

(** The loop that builds [creds["usernames"]]: [u["name"]], [u["email"]],
    [u["password_hash"]] are read in this order; a missing field raises. *)
Definition credential_of (u : UserRecord) : string + Credential :=
  match dict_get "name" u with
  | None => inl "name"
  | Some n =>
      match dict_get "email" u with
      | None => inl "email"
      | Some e =>
          match dict_get "password_hash" u with
          | None => inl "password_hash"
          | Some p => inr (mkCredential n e p)
          end
      end
  end.

Fixpoint build_creds (users_cfg : Dict UserRecord) : string + Dict Credential :=
  match users_cfg with
  | [] => inr []
  | (uname, u) :: rest =>
      match credential_of u with
      | inl key => inl key
      | inr c =>
          match build_creds rest with
          | inl key => inl key
          | inr cs => inr ((uname, c) :: cs)
          end
      end
  end.

Section Identity.
Variable casefold : string -> string.
Variable repr_list : list string -> string.   (* repr of a list of str *)

(** [get_user_record]: the exact key first, then the first key, in the
    order of the dict, that is equal up to case. *)
Definition get_user_record (cfg : Dict UserRecord) (uname : option string)
  : option UserRecord :=
  match match uname with Some u => dict_get u cfg | None => None end with
  | Some v => Some v
  | None =>
      let uname_cf := casefold (py_str uname) in
      option_map snd
        (find (fun kv => String.eqb (casefold (fst kv)) uname_cf) cfg)
  end.

Definition mapping_msg (users_cfg : Dict UserRecord) (uname : option string) : string :=
  ("Merchant mapping not found for this user. "
   ++ "Got username='" ++ py_str uname ++ "'. Available users: "
   ++ repr_list (keys users_cfg) ++ ". "
   ++ "Check App → Settings → Secrets.")%string.

(** [merchant_rec] and the test
    [not merchant_rec or "merchant_id" not in merchant_rec]. *)
Definition merchant_id_of (users_cfg : Dict UserRecord) (uname : option string)
  : string + string :=
  match get_user_record users_cfg uname with
  | None => inl (mapping_msg users_cfg uname)
  | Some [] => inl (mapping_msg users_cfg uname)
  | Some merchant_rec =>
      match dict_get "merchant_id" merchant_rec with
      | None => inl (mapping_msg users_cfg uname)
      | Some merchant_id => inr merchant_id
      end
  end.

Context {cell : Type} `{Cells cell}.

(** The script from top to bottom.  [users_cfg] is the section [users] of
    the Secrets (the empty dict when absent) and [session] what the
    authenticator left in the session state. *)
Definition main (users_cfg : Dict UserRecord) (session : Session)
           (date_input : date -> date -> date * date) : IO cell Page :=
  match build_creds users_cfg with
  | inl key => ret (Key_error key)
  | inr _ =>
      match authentication_status session with
      | Some false => ret (Login_error "Invalid credentials")
      | None => ret (Login_info "Please log in.")
      | Some true =>
          match merchant_id_of users_cfg (username session) with
          | inl msg => ret (Mapping_error msg)
          | inr merchant_id =>
              o <- app merchant_id date_input ;;
              ret (Portal o)
          end
      end
  end.

End Identity.

(* ------------------------------------------------------------------ *)
(** ** KPIs and caption *)

(** [int(daily["orders"].sum()) if not daily.empty else 0] *)
Definition total_orders (d : list DailyRow) : Z :=
  match d with
  | [] => 0
  | _ => fold_left Z.add (map orders d) 0
  end.

(** [daily["aov"].iloc[-1] if not daily.empty else None]; the tile shows a
    dash when the value is [None] or NaN, both [None] here. *)
Definition aov_latest (d : list DailyRow) : option Qc :=
  match d with
  | [] => None
  | _ => last (map aov d) None
  end.

(** [merchant_tx['__path__'].iat[0]]: the tag of the first row. *)
Definition caption_source {cell : Type} (mtx : list (TxRow cell)) : option cell :=
  match mtx with
  | [] => None
  | r :: _ => Some (other r "__path__")
  end.

(* ------------------------------------------------------------------ *)
(** ** More predicates and sample data *)

(** The file that [load_transactions] returns in world [w], untagged. *)
Definition first_file {cell : Type} (w : World cell) : option (string * DataFrame cell) :=
  match files w "sample_merchant_transactions.csv" with
  | Some df => Some ("sample_merchant_transactions.csv", df)
  | None =>
      match files w "data/sample_merchant_transactions.csv" with
      | Some df => Some ("data/sample_merchant_transactions.csv", df)
      | None => None
      end
  end.

Definition counted {cell : Type} (r : TxRow cell) : bool := has_date r && has_amount r.

(** Lower case of the letters A-Z: a case folding for plain text. *)
Definition ascii_lower (c : ascii) : ascii :=
  let n := nat_of_ascii c in
  if (Nat.leb 65 n && Nat.leb n 90)%bool then ascii_of_nat (n + 32) else c.

Fixpoint lower (s : string) : string :=
  match s with
  | EmptyString => EmptyString
  | String c s' => String (ascii_lower c) (lower s')
  end.

Definition plain_repr (l : list string) : string :=
  ("[" ++ String.concat ", " (map (fun s => "'" ++ s ++ "'") l) ++ "]")%string.

Definition user (n e p m : string) : UserRecord :=
  [("name", n); ("email", e); ("password_hash", p); ("merchant_id", m)].

Definition two_users : Dict UserRecord :=
  [("M001", user "Merchant A" "a@example.com" "hashA" "M001");
   ("m001", user "Merchant a" "low@example.com" "hashL" "M009")].

Definition logged_in (u : string) : Session := mkSession (Some true) (Some u) (Some u).

(** The credentials entry [y] was built from the item [x] of the
    configuration. *)
Definition credential_matches (x : string * UserRecord) (y : string * Credential) : Prop :=
  fst x = fst y /\
  dict_get "name" (snd x) = Some (cred_name (snd y)) /\
  dict_get "email" (snd x) = Some (cred_email (snd y)) /\
  dict_get "password_hash" (snd x) = Some (cred_password (snd y)).

(** What the aggregator reads of a row, and what the merchant filter and the
    aggregator read of it. *)
Definition day_amount {cell : Type} (r : TxRow cell) : option date * option Qc :=
  (group_key r, settle_amount r).

Definition fields {cell : Type} (r : TxRow cell)
  : string * option Timestamp * option Qc :=
  (merchant r, transaction_date r, settle_amount r).

(** 1 for a row with an amount, 0 for a row without. *)
Definition one_if_amount {cell : Type} (r : TxRow cell) : Z :=
  if has_amount r then 1 else 0.

Definition shop_users : Dict UserRecord :=
  [("Shop", user "Shop one" "one@example.com" "hash1" "M001");
   ("SHOP", user "Shop two" "two@example.com" "hash2" "M002")].

Definition broken_users : Dict UserRecord :=
  [("M001", user "Merchant A" "a@example.com" "hashA" "M001");
   ("M002", [("name", "Merchant B"); ("email", "b@example.com")])].



(* ------------------------------------------------------------------ *)
(** ** The aggregation on machine numbers

    The definitions above take an amount as an exact rational and every
    parsed date as one that [datetime.date] can hold.  This part repeats
    lines 137-162 of the script without the two idealisations:
    - an amount is a value of the column's dtype (int64, or float64 with NaN
      and the infinities), the sum of a group is the sum that the dtype
      computes, and [aov] is a float64;
    - [Series.dt.date] raises when a timestamp has a year outside 1..9999;
    - the date widget is outside the script: it may raise, and it returns a
      tuple that need not have two elements. *)

From Stdlib Require PrimFloat Uint63 FloatAxioms SpecFloat FloatOps.

Module Machine.

(** What the script lets escape between the merchant filter and the range
    filter. *)
Inductive Raise :=
| ValueError_date       (* .dt.date, line 139: year out of range *)
| Widget_error          (* raised inside st.sidebar.date_input, line 156 *)
| ValueError_unpack.    (* start_date, end_date = ...: not two values *)

(** The dtype of the amount column: which values are NaN, the ["sum"] of the
    values of one group (it skips NaN itself) and the conversion to float64
    that true division applies. *)
Class Column (num : Type) := {
  isna : num -> bool;
  group_sum : list num -> num;
  to_float64 : num -> PrimFloat.float
}.

(** A merchant row after "Parse/clean": the date or NaT, and the amount. *)
Record Row (num : Type) : Type := mkRow {
  transaction_date : option Timestamp;
  settle_amount : num
}.
Arguments mkRow {num} _ _.
Arguments transaction_date {num} _.
Arguments settle_amount {num} _.

Record DailyRow (num : Type) : Type := mkDaily {
  date_ : Timestamp;
  revenue : num;
  orders : Z;
  aov : PrimFloat.float
}.
Arguments mkDaily {num} _ _ _ _.
Arguments date_ {num} _.
Arguments revenue {num} _.
Arguments orders {num} _.
Arguments aov {num} _.

(** [datetime.date] holds the years MINYEAR = 1 to MAXYEAR = 9999. *)
Definition representable (d : date) : bool := (1 <=? year d) && (year d <=? 9999).

Definition date_ok (t : option Timestamp) : bool :=
  match t with
  | Some ts => representable (ts_date ts)
  | None => true
  end.

(** [Series.dt.date] on a column: the calendar dates, NaT staying NaT; the
    call raises if one of the timestamps has no [datetime.date]. *)
Definition dt_date (col : list (option Timestamp)) : Raise + list (option date) :=
  if forallb date_ok col
  then inr (map (option_map ts_date) col)
  else inl ValueError_date.

(** A count as a float64. *)
Definition of_count (n : Z) : PrimFloat.float := PrimFloat.of_uint63 (Uint63.of_Z n).

(** The operator's answer in the date widget: an exception, or a tuple of
    dates. *)
Inductive WidgetResult :=
| Widget_raises
| Widget_returns (value : list date).

Section Script.
Context {num : Type} {col : Column num}.

(** ["count"]: the number of values that are not NaN. *)
Definition agg_count (xs : list num) : Z :=
  Z.of_nat (List.length (filter (fun x => negb (isna x)) xs)).

(** The values of the group with key [k]. *)
Definition group (keys : list (option date)) (amounts : list num) (k : option date)
  : list num :=
  map snd (filter (fun p => if key_eq_dec (fst p) k then true else false)
                  (combine keys amounts)).

(** [.groupby(keys, dropna=False).agg(revenue=(AMOUNT, "sum"),
     orders=(AMOUNT, "count")).reset_index().rename(...)] *)
Definition groupby_agg (keys : list (option date)) (amounts : list num)
  : list (option date * num * Z) :=
  map (fun k => let g := group keys amounts k in (k, group_sum g, agg_count g))
      (sort_by key_leb (nodup key_eq_dec keys)).

(** [daily["date"] = pd.to_datetime(daily["date"], errors="coerce")] *)
Definition dates_to_datetime (l : list (option date * num * Z))
  : list (option Timestamp * num * Z) :=
  map (fun '(k, r, o) => (option_map midnight k, r, o)) l.

(** [.dropna(subset=["date"])] *)
Fixpoint dropna (l : list (option Timestamp * num * Z)) : list (Timestamp * num * Z) :=
  match l with
  | [] => []
  | (Some t, r, o) :: l' => (t, r, o) :: dropna l'
  | (None, _, _) :: l' => dropna l'
  end.

(** [.sort_values("date")] *)
Definition sort_values (l : list (Timestamp * num * Z)) : list (Timestamp * num * Z) :=
  sort_by (fun a b => ts_leb (fst (fst a)) (fst (fst b))) l.

(** [daily["revenue"] / daily["orders"]]: a float64 division in every row,
    also where the divisor is 0; nothing is raised. *)
Definition truediv (x : num) (n : Z) : PrimFloat.float :=
  PrimFloat.div (to_float64 x) (of_count n).

(** [Series.where(cond)] *)
Definition where_ (v : PrimFloat.float) (cond : bool) : PrimFloat.float :=
  if cond then v else PrimFloat.nan.

Definition with_aov (x : Timestamp * num * Z) : DailyRow num :=
  let '(t, r, o) := x in
  mkDaily t r o (where_ (truediv r o) (0 <? o)).

(** Lines 137-149. *)
Definition daily (mtx : list (Row num)) : Raise + list (DailyRow num) :=
  match dt_date (map transaction_date mtx) with
  | inl e => inl e
  | inr keys =>
      inr (map with_aov
               (sort_values
                  (dropna
                     (dates_to_datetime
                        (groupby_agg keys (map settle_amount mtx))))))
  end.

(** [daily["date"].min().date()] and [.max().date()]: on an empty series
    [min()] is NaT and [NaT.date()] is NaT again; nothing is raised. *)
Definition min_date (d : list (DailyRow num)) : option date :=
  option_map ts_date (series_min (map date_ d)).

Definition max_date (d : list (DailyRow num)) : option date :=
  option_map ts_date (series_max (map date_ d)).

(** Lines 137-155: the aggregate and the two bounds. *)
Definition date_bounds (mtx : list (Row num)) : Raise + (option date * option date) :=
  match daily mtx with
  | inl e => inl e
  | inr d => inr (min_date d, max_date d)
  end.

(** [daily[(date >= start_date) & (date <= end_date)]] *)
Definition in_range (start_date end_date : date) (r : DailyRow num) : bool :=
  date_leb start_date (ts_date (date_ r)) && date_leb (ts_date (date_ r)) end_date.

Definition range_filter (d : list (DailyRow num)) (start_date end_date : date)
  : list (DailyRow num) :=
  filter (in_range start_date end_date) d.

(** What follows the call of the widget: the unpacking of its value and the
    range filter. *)
Definition after_widget (d : list (DailyRow num)) (answer : WidgetResult)
  : Raise + list (DailyRow num) :=
  match answer with
  | Widget_raises => inl Widget_error
  | Widget_returns [start_date; end_date] => inr (range_filter d start_date end_date)
  | Widget_returns _ => inl ValueError_unpack
  end.

(** Lines 137-162.  [date_input] is the widget, called with the two bounds
    as its value and its limits. *)
Definition dashboard (mtx : list (Row num))
           (date_input : option date -> option date -> WidgetResult)
  : Raise + list (DailyRow num) :=
  match daily mtx with
  | inl e => inl e
  | inr d => after_widget d (date_input (min_date d) (max_date d))
  end.

End Script.

(** *** float64 columns

    The group sum of pandas adds the values that are not NaN in row order
    with a compensation term (Kahan), reset when it is NaN. *)
Definition kahan_step (st : PrimFloat.float * PrimFloat.float) (val : PrimFloat.float)
  : PrimFloat.float * PrimFloat.float :=
  let (sumx, compensation) := st in
  if PrimFloat.is_nan val then st else
  let y := PrimFloat.sub val compensation in
  let t := PrimFloat.add sumx y in
  let c := PrimFloat.sub (PrimFloat.sub t sumx) y in
  (t, if PrimFloat.is_nan c then PrimFloat.zero else c).

Definition float64_sum (xs : list PrimFloat.float) : PrimFloat.float :=
  fst (fold_left kahan_step xs (PrimFloat.zero, PrimFloat.zero)).

#[export] Instance float64 : Column PrimFloat.float := {|
  isna := PrimFloat.is_nan;
  group_sum := float64_sum;
  to_float64 := fun x => x
|}.

(** *** int64 columns

    A value is an integer from -2^63 to 2^63 - 1, none is NaN, and the sum
    wraps around. *)
Definition wrap64 (z : Z) : Z := (z + 2 ^ 63) mod 2 ^ 64 - 2 ^ 63.

Definition int64_sum (xs : list Z) : Z :=
  fold_left (fun acc x => wrap64 (acc + x)) xs 0.

Definition int64_to_float64 (z : Z) : PrimFloat.float :=
  if z =? - 2 ^ 63 then PrimFloat.opp (PrimFloat.mul PrimFloat.two (of_count (2 ^ 62)))
  else if z <? 0 then PrimFloat.opp (of_count (- z))
  else of_count z.

#[export] Instance int64 : Column Z := {|
  isna := fun _ => false;
  group_sum := int64_sum;
  to_float64 := int64_to_float64
|}.

End Machine.

(** Sample tables of machine numbers. *)
Definition at_noon (d : date) : option Timestamp := Some (mkTimestamp d 43200).

(** +inf and -inf on one day. *)
Definition inf_rows : list (Machine.Row PrimFloat.float) :=
  [ Machine.mkRow (at_noon (jan 1)) PrimFloat.infinity;
    Machine.mkRow (at_noon (jan 1)) PrimFloat.neg_infinity ].

(** One row whose amount did not parse. *)
Definition nan_rows : list (Machine.Row PrimFloat.float) :=
  [ Machine.mkRow (at_noon (jan 1)) PrimFloat.nan ].

(** One row whose date did not parse. *)
Definition undated_rows : list (Machine.Row PrimFloat.float) :=
  [ Machine.mkRow None (Machine.of_count 10) ].

(** A date that parsed into the year 0, beside an ordinary one. *)
Definition year0_rows : list (Machine.Row PrimFloat.float) :=
  [ Machine.mkRow (at_noon (jan 1)) (Machine.of_count 10);
    Machine.mkRow (at_noon (mkDate 0 1 1)) (Machine.of_count 5) ].

(** The scenario of the spec as a float64 column and as an int64 column. *)
Definition scenario_float64 : list (Machine.Row PrimFloat.float) :=
  [ Machine.mkRow (at_noon (jan 1)) (Machine.of_count 100);
    Machine.mkRow (at_noon (jan 1)) (Machine.of_count 50);
    Machine.mkRow (at_noon (jan 2)) (Machine.of_count 0) ].

Definition scenario_int64 : list (Machine.Row Z) :=
  [ Machine.mkRow (at_noon (jan 1)) 100;
    Machine.mkRow (at_noon (jan 1)) 50;
    Machine.mkRow (at_noon (jan 2)) 0 ].

(** Two amounts of 2^63 - 1 on one day, and one amount of 2^53 + 1. *)
Definition overflow_rows : list (Machine.Row Z) :=
  [ Machine.mkRow (at_noon (jan 1)) 9223372036854775807;
    Machine.mkRow (at_noon (jan 1)) 9223372036854775807 ].

Definition big_rows : list (Machine.Row Z) :=
  [ Machine.mkRow (at_noon (jan 1)) 9007199254740993 ].

(** The widget left at its default: it returns the bounds it was given. *)
Definition default_answer (lo hi : option date) : Machine.WidgetResult :=
  match lo, hi with
  | Some l, Some h => Machine.Widget_returns [l; h]
  | _, _ => Machine.Widget_raises
  end.

(** The operator picked the first date only. *)
Definition one_date_answer (lo hi : option date) : Machine.WidgetResult :=
  match lo with
  | Some l => Machine.Widget_returns [l]
  | None => Machine.Widget_raises
  end.

(** The record that [Machine.daily] holds for calendar date [d]. *)
Definition machine_day_record {num : Type} {col : Machine.Column num}
           (mtx : list (Machine.Row num)) (d : date) : Machine.DailyRow num :=
  let g := Machine.group (map (option_map ts_date) (map Machine.transaction_date mtx))
                         (map Machine.settle_amount mtx) (Some d) in
  Machine.with_aov (midnight d, Machine.group_sum g, Machine.agg_count g).
(* ------------------------------------------------------------------ *)
(** * Properties *)

(** ** The orders on dates, timestamps and group keys *)

Ltac cases_compare :=
  repeat match goal with
         | |- context [Z.compare ?x ?y] => destruct (Z.compare_spec x y)
         end.

Lemma date_compare_spec (a b : date) :
  match date_compare a b with
  | Lt => date_lt a b
  | Eq => date_same a b
  | Gt => date_lt b a
  end.
Proof.
  unfold date_compare, date_lt, date_same; cases_compare; lia.
Qed.

Lemma date_same_eq (a b : date) : date_same a b <-> a = b.
Proof.
  unfold date_same; split.
  - destruct a, b; simpl; intros (-> & -> & ->); reflexivity.
  - intros ->; auto.
Qed.

Lemma date_leb_iff (a b : date) :
  date_leb a b = true <-> date_lt a b \/ date_same a b.
Proof.
  unfold date_leb. pose proof (date_compare_spec a b) as S.
  destruct (date_compare a b); unfold date_lt, date_same in *;
    split; intros; try discriminate; auto; lia.
Qed.

Lemma date_leb_refl (a : date) : date_leb a a = true.
Proof. apply date_leb_iff; right; apply date_same_eq; reflexivity. Qed.

Lemma date_leb_total (a b : date) : date_leb a b = true \/ date_leb b a = true.
Proof. rewrite !date_leb_iff; unfold date_lt, date_same; lia. Qed.

Lemma date_leb_trans (a b c : date) :
  date_leb a b = true -> date_leb b c = true -> date_leb a c = true.
Proof. rewrite !date_leb_iff; unfold date_lt, date_same; lia. Qed.

Lemma date_leb_antisym (a b : date) :
  date_leb a b = true -> date_leb b a = true -> a = b.
Proof.
  rewrite !date_leb_iff; intros; apply date_same_eq;
    unfold date_lt, date_same in *; lia.
Qed.

Lemma ts_compare_spec (a b : Timestamp) :
  match ts_compare a b with
  | Lt => ts_lt a b
  | Eq => date_same (ts_date a) (ts_date b) /\ ts_time a = ts_time b
  | Gt => ts_lt b a
  end.
Proof.
  unfold ts_compare, ts_lt.
  pose proof (date_compare_spec (ts_date a) (ts_date b)) as S.
  destruct (date_compare (ts_date a) (ts_date b)); auto.
  unfold date_same in *; cases_compare; lia.
Qed.

Lemma ts_same_eq (a b : Timestamp) :
  date_same (ts_date a) (ts_date b) /\ ts_time a = ts_time b <-> a = b.
Proof.
  split.
  - destruct a, b; simpl; intros [E ->]; apply date_same_eq in E; now subst.
  - intros ->; split; [apply date_same_eq|]; reflexivity.
Qed.

Lemma ts_leb_iff (a b : Timestamp) :
  ts_leb a b = true <->
  ts_lt a b \/ (date_same (ts_date a) (ts_date b) /\ ts_time a = ts_time b).
Proof.
  unfold ts_leb. pose proof (ts_compare_spec a b) as S.
  destruct (ts_compare a b); unfold ts_lt, date_lt, date_same in *;
    split; intros; try discriminate; auto; lia.
Qed.

Lemma ts_ltb_iff (a b : Timestamp) : ts_ltb a b = true <-> ts_lt a b.
Proof.
  unfold ts_ltb. pose proof (ts_compare_spec a b) as S.
  destruct (ts_compare a b); unfold ts_lt, date_lt, date_same in *;
    split; intros; try discriminate; auto; lia.
Qed.

Lemma ts_leb_refl (a : Timestamp) : ts_leb a a = true.
Proof. apply ts_leb_iff; right; apply ts_same_eq; reflexivity. Qed.

Lemma ts_leb_total (a b : Timestamp) : ts_leb a b = true \/ ts_leb b a = true.
Proof. rewrite !ts_leb_iff; unfold ts_lt, date_lt, date_same; lia. Qed.

Lemma ts_leb_trans (a b c : Timestamp) :
  ts_leb a b = true -> ts_leb b c = true -> ts_leb a c = true.
Proof. rewrite !ts_leb_iff; unfold ts_lt, date_lt, date_same; lia. Qed.

Lemma ts_leb_antisym (a b : Timestamp) :
  ts_leb a b = true -> ts_leb b a = true -> a = b.
Proof.
  rewrite !ts_leb_iff; intros; apply ts_same_eq;
    unfold ts_lt, date_lt, date_same in *; lia.
Qed.

Lemma ts_leb_date (a b : Timestamp) :
  ts_leb a b = true -> date_leb (ts_date a) (ts_date b) = true.
Proof.
  rewrite ts_leb_iff, date_leb_iff; unfold ts_lt, date_lt, date_same; lia.
Qed.

Lemma ts_leb_midnight (a b : date) :
  ts_leb (midnight a) (midnight b) = date_leb a b.
Proof.
  apply eq_true_iff_eq; rewrite ts_leb_iff, date_leb_iff;
    unfold ts_lt, date_lt, date_same; simpl; lia.
Qed.

Lemma key_leb_total (a b : option date) : key_leb a b = true \/ key_leb b a = true.
Proof. destruct a, b; simpl; auto using date_leb_total. Qed.

(** ** Insertion sort *)

Section SortingFacts.
Context {A : Type} (leb : A -> A -> bool).
Hypothesis leb_total : forall a b, leb a b = true \/ leb b a = true.

Local Abbreviation le := (rel_of leb).

Lemma insert_perm (x : A) (l : list A) : Permutation (insert leb x l) (x :: l).
Proof.
  induction l as [|y l IH]; simpl; [reflexivity|].
  destruct (leb x y); [reflexivity|].
  rewrite IH; apply perm_swap.
Qed.

Lemma sort_by_perm (l : list A) : Permutation (sort_by leb l) l.
Proof.
  induction l as [|x l IH]; simpl; [reflexivity|].
  rewrite insert_perm; now constructor.
Qed.

Lemma sort_by_In (l : list A) (x : A) : In x (sort_by leb l) <-> In x l.
Proof.
  split; apply Permutation_in;
    [apply sort_by_perm | symmetry; apply sort_by_perm].
Qed.

Lemma insert_sorted (x : A) (l : list A) :
  Sorted le l -> Sorted le (insert leb x l).
Proof.
  induction 1 as [|y l S IH Hd]; simpl.
  - repeat constructor.
  - destruct (leb x y) eqn:E.
    + constructor; [now constructor | now constructor].
    + constructor; [exact IH|].
      assert (le y x) by (destruct (leb_total x y); [congruence | assumption]).
      destruct Hd as [|z l' Hyz]; simpl.
      * now constructor.
      * destruct (leb x z); now constructor.
Qed.

Lemma sort_by_sorted (l : list A) : Sorted le (sort_by leb l).
Proof.
  induction l as [|x l IH]; simpl; [constructor | now apply insert_sorted].
Qed.

(** Sorting a sorted list changes nothing. *)
Lemma insert_head (x : A) (l : list A) : HdRel le x l -> insert leb x l = x :: l.
Proof.
  destruct 1 as [|y l E]; simpl; [reflexivity|].
  unfold rel_of in E; now rewrite E.
Qed.

Lemma sort_by_id (l : list A) : Sorted le l -> sort_by leb l = l.
Proof.
  induction 1 as [|x l S IH Hd]; simpl; [reflexivity|].
  rewrite IH; now apply insert_head.
Qed.
End SortingFacts.

(** ** Dataset loader *)

Section Loader.
Context {cell : Type} `{Cells cell}.

Lemma set_column_tagged (name : string) (v : cell) (df : DataFrame cell) :
  In name (columns (set_column name v df)) /\
  Forall (fun r => r name = v) (rows (set_column name v df)) /\
  List.length (rows (set_column name v df)) = List.length (rows df).
Proof.
  unfold set_column; simpl; repeat split.
  - unfold mem; destruct (existsb (String.eqb name) (columns df)) eqn:E.
    + apply existsb_exists in E as (c & Hin & Hc).
      apply String.eqb_eq in Hc; now subst.
    + apply in_or_app; right; now left.
  - apply Forall_forall; intros r Hr.
    apply in_map_iff in Hr as (r0 & <- & _).
    now rewrite String.eqb_refl.
  - apply length_map.
Qed.

Lemma load_loop_spec (ps : list string) (w : World cell) :
  files (snd (load_loop ps w)) = files w /\
  exists attempted,
    reads (snd (load_loop ps w)) = reads w ++ attempted /\
    first_readable w ps (fst (load_loop ps w)) attempted.
Proof.
  revert w; induction ps as [|p ps IH]; intros w; simpl.
  - split; [reflexivity|]. exists []; simpl.
    rewrite app_nil_r; repeat split; constructor.
  - unfold bind, read_csv.
    destruct (files w p) as [df|] eqn:E; simpl.
    + split; [reflexivity|]. exists [p]; split; [reflexivity|].
      exists [], p, ps, df; repeat split; auto.
    + specialize (IH (mkWorld (files w) (reads w ++ [p]))).
      simpl in IH. destruct IH as (Hf & att & Hr & Hfirst).
      split; [exact Hf|]. exists (p :: att); split.
      * rewrite Hr, <- app_assoc; reflexivity.
      * unfold first_readable in *.
        destruct (fst (load_loop ps _)) as [tx|].
        -- destruct Hfirst as (pre & q & post & df & -> & Hpre & Hq & -> & ->).
           exists (p :: pre), q, post, df; repeat split; auto.
        -- destruct Hfirst as [Hall ->]; split; auto.
Qed.
End Loader.

(** C8.  The loader tries the candidate locations in order.  For every list
    of candidates the loop reads a prefix of the list, in order, and stops at
    the first location that reads; the frame it returns is that location's
    table, tagged with it.  [load_transactions] runs the loop on its two
    locations: on success every row of the result carries the location in
    column [__path__]; when no location reads it raises [FileNotFoundError]
    with a message that names every candidate.  The files of the world are the
    same before and after: the run only adds to the log of reads. *)
Theorem load_transactions_first_readable {cell : Type} `{Cells cell} :
  (forall (ps : list string) (w : World cell),
      files (snd (load_loop ps w)) = files w /\
      exists attempted,
        reads (snd (load_loop ps w)) = reads w ++ attempted /\
        first_readable w ps (fst (load_loop ps w)) attempted) /\
  (forall w : World cell,
      files (snd (load_transactions w)) = files w /\
      (exists attempted rest,
          candidates = attempted ++ rest /\
          reads (snd (load_transactions w)) = reads w ++ attempted) /\
      match fst (load_transactions w) with
      | inr tx =>
          exists pre p post df,
            candidates = pre ++ p :: post /\
            Forall (fun q => files w q = None) pre /\
            files w p = Some df /\
            tx = set_column "__path__" (str_cell p) df /\
            In "__path__" (columns tx) /\
            Forall (fun r => r "__path__" = str_cell p) (rows tx)
      | inl exn =>
          Forall (fun p => files w p = None) candidates /\
          exists msg,
            exn = FileNotFoundError msg /\
            Forall (fun p => contains p msg = true) candidates
      end).
Proof.
  split; [intros ps w; apply load_loop_spec|].
  intros w. destruct (load_loop_spec candidates w) as (Hfiles & att & Hreads & Hfirst).
  unfold load_transactions, bind.
  destruct (load_loop candidates w) as [[tx|] w'] eqn:E;
    cbn [fst snd first_readable ret] in *.
  - destruct Hfirst as (pre & p & post & df & Hps & Hpre & Hp & -> & ->).
    split; [exact Hfiles|]. split.
    + exists (pre ++ [p]), post; split; [|exact Hreads].
      rewrite Hps, <- app_assoc; reflexivity.
    + exists pre, p, post, df.
      destruct (set_column_tagged "__path__" (str_cell p) df) as (? & ? & _).
      repeat split; auto.
  - destruct Hfirst as [Hall ->].
    split; [exact Hfiles|]. split.
    + exists candidates, []; split; [symmetry; apply app_nil_r | exact Hreads].
    + split; [exact Hall|].
      exists not_found_msg; split; [reflexivity|].
      repeat constructor.
Qed.

(** ** Schema validator *)

Lemma mem_In (s : string) (l : list string) : mem s l = true <-> In s l.
Proof.
  unfold mem; rewrite existsb_exists; split.
  - intros (x & Hin & E); apply String.eqb_eq in E; now subst.
  - intros Hin; exists s; split; [exact Hin | apply String.eqb_refl].
Qed.

Lemma needed_NoDup : NoDup needed.
Proof.
  unfold needed, MERCHANT, DATE, AMOUNT.
  repeat constructor; simpl; intuition discriminate.
Qed.

Lemma missing_In {cell : Type} (tx : DataFrame cell) (n : string) :
  In n (missing tx) <-> In n needed /\ ~ In n (columns tx).
Proof.
  unfold missing; rewrite filter_In, negb_true_iff, <- not_true_iff_false, mem_In.
  reflexivity.
Qed.

(** C9.  The names reported by the schema check are exactly the required
    names that the table lacks, in ascending order and without repetition;
    if a required name is absent the check stops with the message that lists
    them, and if none is absent the table goes on unchanged. *)
Theorem validate_reports_missing_sorted {cell : Type} (tx : DataFrame cell) :
  let miss := sorted (missing tx) in
  (forall n, In n miss <-> In n needed /\ ~ In n (columns tx)) /\
  Sorted (rel_of String.leb) miss /\
  NoDup miss /\
  ((exists n, In n needed /\ ~ In n (columns tx)) ->
   validate tx =
   inl ("Missing required column(s) in CSV: " ++ join ", " miss)%string) /\
  ((forall n, In n needed -> In n (columns tx)) -> validate tx = inr tx).
Proof.
  intros miss.
  assert (Hin : forall n, In n miss <-> In n needed /\ ~ In n (columns tx)).
  { intros n; unfold miss, sorted; rewrite sort_by_In; apply missing_In. }
  split; [exact Hin|].
  split; [apply sort_by_sorted, String.leb_total|].
  split.
  { unfold miss, sorted.
    eapply Permutation_NoDup; [symmetry; apply sort_by_perm|].
    apply NoDup_filter, needed_NoDup. }
  split.
  - intros (n & Hn & Hc). unfold validate.
    destruct (missing tx) as [|m ms] eqn:E.
    + exfalso. assert (In n (missing tx)) by (apply missing_In; auto).
      rewrite E in *; contradiction.
    + reflexivity.
  - intros Hall. unfold validate.
    destruct (missing tx) as [|m ms] eqn:E; [reflexivity|].
    exfalso. assert (Hm : In m (missing tx)) by (rewrite E; now left).
    apply missing_In in Hm as [Hn Hc]; auto.
Qed.

(** ** Daily aggregator *)

Lemma somes_In {A : Type} (l : list (option A)) (a : A) :
  In a (somes l) <-> In (Some a) l.
Proof.
  induction l as [|[x|] l IH]; simpl.
  - tauto.
  - rewrite IH; split; intros [E|E]; auto; left; congruence.
  - rewrite IH; split; [auto | intros [E|E]; [discriminate | exact E]].
Qed.

Lemma somes_NoDup {A : Type} (l : list (option A)) : NoDup l -> NoDup (somes l).
Proof.
  induction 1 as [|[x|] l Hx Hl IH]; simpl; auto; try constructor; auto.
  now rewrite somes_In.
Qed.

Lemma keys_after_NaT (l : list (option date)) :
  Sorted (rel_of key_leb) (None :: l) -> somes l = [].
Proof.
  induction l as [|x l IH]; intros S; [reflexivity|].
  apply Sorted_inv in S as [S Hd].
  apply HdRel_inv in Hd. destruct x as [d|]; [discriminate Hd|].
  simpl; auto.
Qed.

Lemma somes_sorted (l : list (option date)) :
  Sorted (rel_of key_leb) l -> Sorted (rel_of date_leb) (somes l).
Proof.
  induction 1 as [|a l S IH Hd]; simpl; [constructor|].
  destruct a as [d|]; [|exact IH].
  constructor; [exact IH|].
  destruct Hd as [|x l' Hx]; simpl; [constructor|].
  destruct x as [e|].
  - constructor; exact Hx.
  - rewrite (keys_after_NaT l' S); constructor.
Qed.

Lemma sorted_map {A B : Type} (R : A -> A -> Prop) (R' : B -> B -> Prop)
      (f : A -> B) (l : list A) :
  (forall a b, R a b -> R' (f a) (f b)) -> Sorted R l -> Sorted R' (map f l).
Proof.
  intros Hf; induction 1 as [|a l S IH Hd]; simpl; constructor; auto.
  destruct Hd; simpl; constructor; auto.
Qed.

(** A sorted list without repetition is strictly ascending, every element
    below all the later ones. *)
Lemma strictly_sorted {A : Type} (leb : A -> A -> bool) (lt : A -> A -> Prop)
      (l : list A) :
  (forall a b c, leb a b = true -> leb b c = true -> leb a c = true) ->
  (forall a b, leb a b = true -> lt a b \/ a = b) ->
  Sorted (rel_of leb) l -> NoDup l -> StronglySorted lt l.
Proof.
  intros Htrans Hlt S N. apply Sorted_StronglySorted in S.
  - induction S as [|a l S IH Hall]; constructor.
    + apply IH; now inversion N.
    + inversion N as [|? ? Hnotin _]; subst.
      rewrite Forall_forall in *; intros b Hb.
      specialize (Hall b Hb). unfold rel_of in Hall.
      destruct (Hlt a b Hall) as [H|H]; [exact H | subst; contradiction].
  - intros a b c; apply Htrans.
Qed.

Lemma date_leb_lt (a b : date) : date_leb a b = true -> date_lt a b \/ a = b.
Proof. rewrite date_leb_iff, date_same_eq; auto. Qed.


Lemma date_lt_irrefl (a : date) : ~ date_lt a a.
Proof. unfold date_lt; lia. Qed.


Section Aggregator.
Context {cell : Type}.
Implicit Types (mtx : list (TxRow cell)) (d : date) (k : option date).

Lemma group_keys_In mtx k :
  In k (group_keys mtx) <-> exists r, In r mtx /\ group_key r = k.
Proof.
  unfold group_keys; rewrite sort_by_In, nodup_In, in_map_iff.
  split; intros (r & A & B); exists r; auto.
Qed.

Lemma group_keys_NoDup mtx : NoDup (group_keys mtx).
Proof.
  unfold group_keys.
  eapply Permutation_NoDup; [symmetry; apply sort_by_perm | apply NoDup_nodup].
Qed.

Lemma group_keys_sorted mtx : Sorted (rel_of key_leb) (group_keys mtx).
Proof. apply sort_by_sorted, key_leb_total. Qed.

Lemma dates_In mtx d :
  In d (dates mtx) <-> exists r, In r mtx /\ group_key r = Some d.
Proof. unfold dates; rewrite somes_In; apply group_keys_In. Qed.

Lemma dates_NoDup mtx : NoDup (dates mtx).
Proof. apply somes_NoDup, group_keys_NoDup. Qed.

Lemma dates_sorted mtx : Sorted (rel_of date_leb) (dates mtx).
Proof. apply somes_sorted, group_keys_sorted. Qed.

Lemma dropna_groups mtx (keys : list (option date)) :
  dropna (dates_to_datetime
            (map (fun k => let g := map settle_amount (group mtx k) in
                           (k, agg_sum g, agg_count g)) keys)) =
  map (fun d => let g := map settle_amount (group mtx (Some d)) in
                (midnight d, agg_sum g, agg_count g)) (somes keys).
Proof.
  unfold dates_to_datetime.
  induction keys as [|[d|] keys IH]; simpl; [reflexivity| |exact IH].
  now rewrite IH.
Qed.

(** [daily] holds one record for each date of [dates], in this order: the
    NaT group is dropped, and the groups come out of [groupby] sorted, so
    that [sort_values] moves nothing. *)
Lemma daily_unfold mtx : daily mtx = map (day_record mtx) (dates mtx).
Proof.
  unfold daily, groupby_agg. rewrite dropna_groups.
  unfold sort_values. rewrite sort_by_id.
  - rewrite map_map; reflexivity.
  - eapply sorted_map; [|apply dates_sorted].
    intros a b Hab; unfold rel_of in *; simpl.
    now rewrite ts_leb_midnight.
Qed.


Lemma daily_In mtx (rec : DailyRow) :
  In rec (daily mtx) <->
  exists d, rec = day_record mtx d /\ exists r, In r mtx /\ group_key r = Some d.
Proof.
  rewrite daily_unfold, in_map_iff; split.
  - intros (d & <- & Hd); exists d; split; [reflexivity | now apply dates_In].
  - intros (d & -> & Hd); exists d; split; [reflexivity | now apply dates_In].
Qed.

End Aggregator.

(** Equalities between concrete amounts, records and lists of them. *)
Ltac same_values :=
  vm_compute;
  repeat first [ apply Qc_is_canon; reflexivity | reflexivity | f_equal ].


Lemma agg_count_length {cell : Type} (g : list (TxRow cell)) :
  agg_count (map settle_amount g) = Z.of_nat (List.length (filter has_amount g)).
Proof.
  unfold agg_count; f_equal.
  induction g as [|r g IH]; simpl; [reflexivity|].
  unfold has_amount at 1. destruct (settle_amount r); simpl; now rewrite IH.
Qed.


(** C1.  A row whose amount does not parse is a row of its day, but the
    aggregator does not count it: for the table with the single row
    (M001, 2024-01-01, n/a) the day's group has one row and the record of the
    day has [orders = 0] (and [revenue = 0]). *)
Theorem orders_count_skips_null_amount :
  let mtx := merchant_tx (clean csv_null_amount) "M001" in
  List.length (filter (on_date (jan 1)) mtx) = 1%nat /\
  map settle_amount mtx = [None] /\
  daily mtx = [mkDaily (midnight (jan 1)) (of_int 0) 0 None] /\
  fst (app "M001" whole_range (one_file csv_null_amount)) =
  Rendered [mkDaily (midnight (jan 1)) (of_int 0) 0 None].
Proof.
  repeat split; same_values.
Qed.

(** C3.  The scenario of the spec: the rows (M001, 2024-01-01, 100),
    (M001, 2024-01-01, 50), (M001, 2024-01-02, 0), filtered to M001 and
    aggregated by day, give (2024-01-01, 150, 2, 75) and
    (2024-01-02, 0, 1, 0), in this order. *)
Theorem scenario_daily {cell : Type} (o1 o2 o3 : Row cell) :
  daily (merchant_tx (scenario o1 o2 o3) "M001") =
  [ mkDaily (midnight (jan 1)) (of_int 150) 2 (Some (of_int 75));
    mkDaily (midnight (jan 2)) (of_int 0) 1 (Some (of_int 0)) ].
Proof.
  same_values.
Qed.

Lemma dates_strictly_sorted {cell : Type} (mtx : list (TxRow cell)) :
  StronglySorted date_lt (dates mtx).
Proof.
  apply (strictly_sorted date_leb).
  - apply date_leb_trans.
  - apply date_leb_lt.
  - apply dates_sorted.
  - apply dates_NoDup.
Qed.




(** ** Rows without a date *)

Lemma strongly_sorted_ext {A : Type} (lt : A -> A -> Prop) :
  (forall a, ~ lt a a) ->
  (forall a b, lt a b -> lt b a -> False) ->
  forall l1 l2,
    StronglySorted lt l1 -> StronglySorted lt l2 ->
    (forall x, In x l1 <-> In x l2) -> l1 = l2.
Proof.
  intros Hirr Hasym; induction l1 as [|a l1 IH]; intros [|b l2] S1 S2 Hin.
  - reflexivity.
  - exfalso; apply (Hin b); now left.
  - exfalso; apply (Hin a); now left.
  - apply StronglySorted_inv in S1 as [S1 F1].
    apply StronglySorted_inv in S2 as [S2 F2].
    rewrite Forall_forall in F1, F2.
    assert (a = b) as ->.
    { destruct (proj1 (Hin a) (or_introl eq_refl)) as [E|Ha]; [now symmetry|].
      destruct (proj2 (Hin b) (or_introl eq_refl)) as [E|Hb]; [exact E|].
      exfalso; eapply Hasym; eauto. }
    f_equal; apply IH; auto.
    intros x; split; intros Hx.
    + destruct (proj1 (Hin x) (or_intror Hx)) as [E|Hx2]; [|exact Hx2].
      subst; exfalso; eapply Hirr; eauto.
    + destruct (proj2 (Hin x) (or_intror Hx)) as [E|Hx1]; [|exact Hx1].
      subst; exfalso; eapply Hirr; eauto.
Qed.

Lemma filter_absorb {A : Type} (f g : A -> bool) (l : list A) :
  (forall x, f x = true -> g x = true) -> filter f (filter g l) = filter f l.
Proof.
  intros Hfg; induction l as [|x l IH]; simpl; [reflexivity|].
  destruct (g x) eqn:Eg; simpl; rewrite IH; [reflexivity|].
  destruct (f x) eqn:Ef; [|reflexivity].
  apply Hfg in Ef; congruence.
Qed.

Section Undated.
Context {cell : Type}.
Implicit Types (mtx : list (TxRow cell)) (d : date).

Lemma on_date_has_date d (r : TxRow cell) : on_date d r = true -> has_date r = true.
Proof.
  unfold on_date, has_date, group_key, dt_date.
  destruct (transaction_date r); simpl; [reflexivity|].
  destruct (key_eq_dec None (Some d)); congruence.
Qed.

Lemma dates_ignore_undated mtx : dates (filter has_date mtx) = dates mtx.
Proof.
  apply (strongly_sorted_ext date_lt).
  - apply date_lt_irrefl.
  - unfold date_lt; lia.
  - apply dates_strictly_sorted.
  - apply dates_strictly_sorted.
  - intros d; rewrite !dates_In; split; intros (r & Hr & E); exists r.
    + apply filter_In in Hr as [Hr _]; auto.
    + split; [|exact E]. apply filter_In; split; [exact Hr|].
      apply (on_date_has_date d); unfold on_date.
      destruct (key_eq_dec (group_key r) (Some d)); congruence.
Qed.

(** The rows whose date is missing contribute nothing to the aggregate:
    removing them beforehand gives the same records. *)
Lemma daily_ignores_undated mtx : daily (filter has_date mtx) = daily mtx.
Proof.
  rewrite !daily_unfold, dates_ignore_undated.
  apply map_ext; intros d. unfold day_record, group.
  change (fun r : TxRow cell => if key_eq_dec (group_key r) (Some d) then true else false)
    with (@on_date cell d).
  rewrite filter_absorb by apply on_date_has_date. reflexivity.
Qed.

(** Every record of the aggregate is the record of a date that a row of
    the table carries. *)
Lemma daily_dates_parse mtx (rec : DailyRow) :
  In rec (daily mtx) ->
  exists r t, In r mtx /\ transaction_date r = Some t /\
              date_ rec = midnight (ts_date t).
Proof.
  intros Hin; apply daily_In in Hin as (d & -> & r & Hr & Hk).
  unfold group_key, dt_date in Hk.
  destruct (transaction_date r) as [t|] eqn:E; [|discriminate].
  injection Hk as <-. exists r, t; auto.
Qed.

Lemma daily_empty_iff mtx :
  daily mtx = [] <-> forall r, In r mtx -> transaction_date r = None.
Proof.
  rewrite daily_unfold; split.
  - intros E r Hr. apply map_eq_nil in E.
    destruct (transaction_date r) as [t|] eqn:Et; [|reflexivity].
    assert (Hin : In (ts_date t) (dates mtx)).
    { apply dates_In; exists r; split; [exact Hr|].
      unfold group_key; now rewrite Et. }
    rewrite E in Hin; contradiction.
  - intros Hall. destruct (dates mtx) as [|d ds] eqn:E; [reflexivity|].
    assert (Hin : In d (dates mtx)) by (rewrite E; now left).
    apply dates_In in Hin as (r & Hr & Hk).
    unfold group_key in Hk; rewrite (Hall r Hr) in Hk; discriminate.
Qed.

End Undated.

(** Cleaning keeps every row, in place; no coercion fails. *)
Lemma clean_keeps_rows {cell : Type} `{Cells cell} (tx : DataFrame cell) :
  map other (clean tx) = rows tx /\ List.length (clean tx) = List.length (rows tx).
Proof.
  unfold clean; split; [|apply length_map].
  rewrite map_map; simpl; apply map_id.
Qed.

(** ** The script as a whole *)

Lemma app_outcome {cell : Type} `{Cells cell} (merchant_id : string)
      (date_input : date -> date -> date * date) (w : World cell) :
  fst (app merchant_id date_input w) =
  match fst (load_transactions w) with
  | inl exn => Raised exn
  | inr tx =>
      match validate tx with
      | inl msg => Stopped Error msg
      | inr tx' =>
          match merchant_tx (clean tx') merchant_id with
          | [] => Stopped Warning (no_tx_msg merchant_id)
          | mtx => dashboard mtx date_input
          end
      end
  end.
Proof.
  unfold app, bind.
  destruct (load_transactions w) as [[exn|tx] w']; simpl; [reflexivity|].
  destruct (validate tx) as [msg|tx']; [reflexivity|].
  destruct (merchant_tx (clean tx') merchant_id); reflexivity.
Qed.

(** C4.  A row whose date does not parse is left out of the aggregate, and
    the load and the coercions succeed; but with the single row
    (M001, not a date, 10) nothing is left to aggregate, and the run of the
    script ends in an exception instead of succeeding. *)
Theorem unparseable_date_row_ends_in_exception :
  let tx := clean csv_bad_date in
  fst (load_transactions (one_file csv_bad_date)) =
    inr (set_column "__path__" "sample_merchant_transactions.csv" csv_bad_date) /\
  map transaction_date tx = [None] /\
  List.length (merchant_tx tx "M001") = 1%nat /\
  daily (merchant_tx tx "M001") = [] /\
  fst (app "M001" whole_range (one_file csv_bad_date)) = Raised ValueError_NaT.
Proof.
  repeat split; same_values.
Qed.

(** ** Date bounds and the range filter *)

Lemma series_min_cons (t : Timestamp) (l : list Timestamp) :
  series_min (t :: l) =
  match series_min l with
  | None => Some t
  | Some m => Some (if ts_leb t m then t else m)
  end.
Proof. reflexivity. Qed.

Lemma series_max_cons (t : Timestamp) (l : list Timestamp) :
  series_max (t :: l) =
  match series_max l with
  | None => Some t
  | Some m => Some (if ts_leb m t then t else m)
  end.
Proof. reflexivity. Qed.

Lemma series_min_nonempty (l : list Timestamp) :
  l <> [] -> exists m, series_min l = Some m.
Proof.
  destruct l as [|t l]; [congruence|]; intros _; rewrite series_min_cons.
  destruct (series_min l); eauto.
Qed.

Lemma series_max_nonempty (l : list Timestamp) :
  l <> [] -> exists m, series_max l = Some m.
Proof.
  destruct l as [|t l]; [congruence|]; intros _; rewrite series_max_cons.
  destruct (series_max l); eauto.
Qed.

Lemma series_min_none (l : list Timestamp) : series_min l = None -> l = [].
Proof.
  destruct l as [|t l]; [reflexivity|]. rewrite series_min_cons.
  destruct (series_min l); discriminate.
Qed.

Lemma series_max_none (l : list Timestamp) : series_max l = None -> l = [].
Proof.
  destruct l as [|t l]; [reflexivity|]. rewrite series_max_cons.
  destruct (series_max l); discriminate.
Qed.

Lemma series_min_lower (l : list Timestamp) (m : Timestamp) :
  series_min l = Some m -> In m l /\ Forall (fun t => ts_leb m t = true) l.
Proof.
  revert m; induction l as [|t l IH]; intros m; [discriminate|].
  rewrite series_min_cons. destruct (series_min l) as [m0|] eqn:E.
  - destruct (IH m0 eq_refl) as [Hin Hall].
    destruct (ts_leb t m0) eqn:Hle; intros [= <-].
    + split; [now left|]. constructor; [apply ts_leb_refl|].
      eapply Forall_impl; [|exact Hall]. intros a Ha; eapply ts_leb_trans; eauto.
    + split; [now right|]. constructor; [|exact Hall].
      destruct (ts_leb_total t m0); congruence.
  - intros [= <-]. apply series_min_none in E; subst.
    split; [now left|]. constructor; [apply ts_leb_refl | constructor].
Qed.

Lemma series_max_upper (l : list Timestamp) (m : Timestamp) :
  series_max l = Some m -> In m l /\ Forall (fun t => ts_leb t m = true) l.
Proof.
  revert m; induction l as [|t l IH]; intros m; [discriminate|].
  rewrite series_max_cons. destruct (series_max l) as [m0|] eqn:E.
  - destruct (IH m0 eq_refl) as [Hin Hall].
    destruct (ts_leb m0 t) eqn:Hle; intros [= <-].
    + split; [now left|]. constructor; [apply ts_leb_refl|].
      eapply Forall_impl; [|exact Hall].
      intros a Ha; simpl in Ha; apply (ts_leb_trans a m0 t); assumption.
    + split; [now right|]. constructor; [|exact Hall].
      destruct (ts_leb_total m0 t); congruence.
  - intros [= <-]. apply series_max_none in E; subst.
    split; [now left|]. constructor; [apply ts_leb_refl | constructor].
Qed.

Lemma subseq_filter {A : Type} (f : A -> bool) (l : list A) : subseq (filter f l) l.
Proof.
  induction l as [|x l IH]; simpl; [constructor|].
  destruct (f x); now constructor.
Qed.

Lemma subseq_filter_greatest {A : Type} (f : A -> bool) (l0 l : list A) :
  subseq l0 l -> Forall (fun x => f x = true) l0 -> subseq l0 (filter f l).
Proof.
  induction 1 as [|x l1 l2 S IH|x l1 l2 S IH]; intros F; simpl.
  - constructor.
  - destruct (f x); [apply subseq_skip|]; auto.
  - inversion F as [|? ? Hx F']; subst. rewrite Hx. apply subseq_keep; auto.
Qed.

Lemma subseq_In {A : Type} (l1 l2 : list A) (x : A) :
  subseq l1 l2 -> In x l1 -> In x l2.
Proof.
  induction 1; simpl; intuition.
Qed.

Lemma subseq_map {A B : Type} (f : A -> B) (l1 l2 : list A) :
  subseq l1 l2 -> subseq (map f l1) (map f l2).
Proof. induction 1; simpl; now constructor. Qed.

Lemma subseq_strongly_sorted {A : Type} (R : A -> A -> Prop) (l1 l2 : list A) :
  subseq l1 l2 -> StronglySorted R l2 -> StronglySorted R l1.
Proof.
  induction 1 as [|x l1 l2 S IH|x l1 l2 S IH]; intros SS.
  - constructor.
  - apply StronglySorted_inv in SS as [SS _]; auto.
  - apply StronglySorted_inv in SS as [SS F]. constructor; [auto|].
    rewrite Forall_forall in *; intros y Hy; apply F.
    eapply subseq_In; eauto.
Qed.

(** C7.  The range filter returns a subsequence of the daily records: the
    records it keeps are exactly those whose date lies in the window, it is
    the greatest subsequence of such records, and an ascending sequence stays
    ascending.  With the window set to the minimum and the maximum date of
    the sequence the filter returns the sequence itself. *)
Theorem range_filter_window (d : list DailyRow) (start_date end_date : date) :
  subseq (range_filter d start_date end_date) d /\
  (forall rec, In rec (range_filter d start_date end_date) <->
               In rec d /\
               date_leb start_date (ts_date (date_ rec)) = true /\
               date_leb (ts_date (date_ rec)) end_date = true) /\
  (forall l, subseq l d ->
             Forall (fun rec => in_range start_date end_date rec = true) l ->
             subseq l (range_filter d start_date end_date)) /\
  (StronglySorted ts_lt (map date_ d) ->
   StronglySorted ts_lt (map date_ (range_filter d start_date end_date))) /\
  (min_date d = Some start_date -> max_date d = Some end_date ->
   range_filter d start_date end_date = d).
Proof.
  unfold range_filter. split; [apply subseq_filter|].
  split; [intros rec; rewrite filter_In; unfold in_range;
          rewrite andb_true_iff; reflexivity|].
  split; [intros l; apply subseq_filter_greatest|].
  split.
  - apply subseq_strongly_sorted, subseq_map, subseq_filter.
  - unfold min_date, max_date, dt_date; intros Hmin Hmax.
    destruct (series_min (map date_ d)) as [lo|] eqn:Elo; [|discriminate].
    destruct (series_max (map date_ d)) as [hi|] eqn:Ehi; [|discriminate].
    simpl in Hmin, Hmax. injection Hmin as <-. injection Hmax as <-.
    apply series_min_lower in Elo as [_ Hlo].
    apply series_max_upper in Ehi as [_ Hhi].
    rewrite Forall_forall in Hlo, Hhi.
    apply forallb_filter_id, forallb_forall. intros rec Hrec.
    assert (Hin : In (date_ rec) (map date_ d)) by now apply in_map.
    unfold in_range; apply andb_true_iff; split; apply ts_leb_date; auto.
Qed.

Lemma prefix_append (s t : string) : String.prefix s (s ++ t)%string = true.
Proof.
  induction s as [|c s IH]; simpl; [destruct t; reflexivity|].
  destruct (ascii_dec c c); [exact IH | contradiction].
Qed.

(** C6.  When the table loads, has the required columns and holds no row
    whose cleaned identifier equals the merchant identifier, the merchant's
    table and its aggregate are empty and the run stops with the warning
    "No transactions found for merchant: " followed by the identifier; it
    neither raises nor reaches the dashboard. *)
Theorem app_warns_without_merchant_rows {cell : Type} `{Cells cell}
        (w : World cell) (tx : DataFrame cell) (merchant_id : string)
        (date_input : date -> date -> date * date) :
  fst (load_transactions w) = inr tx ->
  validate tx = inr tx ->
  (forall r, In r (clean tx) -> merchant r <> merchant_id) ->
  merchant_tx (clean tx) merchant_id = [] /\
  daily (merchant_tx (clean tx) merchant_id) = [] /\
  fst (app merchant_id date_input w) = Stopped Warning (no_tx_msg merchant_id) /\
  String.prefix ("No transactions found for merchant: " ++ merchant_id)
                (no_tx_msg merchant_id) = true.
Proof.
  intros Hload Hvalid Hnone.
  assert (E : merchant_tx (clean tx) merchant_id = []).
  { unfold merchant_tx. destruct (filter _ (clean tx)) as [|r l] eqn:F; [reflexivity|].
    assert (Hr : In r (filter (fun r => String.eqb (merchant r) merchant_id) (clean tx)))
      by (rewrite F; now left).
    apply filter_In in Hr as [Hr Heq]. apply String.eqb_eq in Heq.
    exfalso; eapply Hnone; eauto. }
  split; [exact E|]. split; [rewrite E; reflexivity|].
  split.
  - rewrite app_outcome, Hload, Hvalid, E; reflexivity.
  - unfold no_tx_msg; simpl. apply prefix_append.
Qed.

(** ** The theorems at concrete tables *)

Lemma validate_reports_missing_sorted_witness :
  ((exists n, In n needed /\ ~ In n (columns csv_no_amount)) /\
   validate csv_no_amount = inl "Missing required column(s) in CSV: Settle Amount") /\
  ((forall n, In n needed -> In n (columns csv_bad_date)) /\
   validate csv_bad_date = inr csv_bad_date).
Proof.
  split.
  - assert (Hmiss : exists n, In n needed /\ ~ In n (columns csv_no_amount)).
    { exists AMOUNT; split; [right; right; left; reflexivity|].
      simpl; intros [E|[E|[]]]; discriminate E. }
    split; [exact Hmiss|].
    exact (proj1 (proj2 (proj2 (proj2
             (validate_reports_missing_sorted csv_no_amount)))) Hmiss).
  - assert (Hall : forall n, In n needed -> In n (columns csv_bad_date)).
    { intros n Hn; exact Hn. }
    split; [exact Hall|].
    exact (proj2 (proj2 (proj2 (proj2
             (validate_reports_missing_sorted csv_bad_date)))) Hall).
Defined.

Example validate_all_missing :
  validate (csv [] []) =
  inl "Missing required column(s) in CSV: Merchant Number - Business Name, Settle Amount, Transaction Date".
Proof. reflexivity. Qed.

Lemma app_warns_without_merchant_rows_witness :
  let w := one_file csv_other_merchant in
  let tx := set_column "__path__" "sample_merchant_transactions.csv" csv_other_merchant in
  fst (load_transactions w) = inr tx /\
  validate tx = inr tx /\
  (forall r, In r (clean tx) -> merchant r <> "M001") /\
  fst (app "M001" whole_range w) = Stopped Warning (no_tx_msg "M001").
Proof.
  intros w tx.
  assert (Hload : fst (load_transactions w) = inr tx) by reflexivity.
  assert (Hvalid : validate tx = inr tx) by reflexivity.
  assert (Hnone : forall r, In r (clean tx) -> merchant r <> "M001").
  { intros r Hr; vm_compute in Hr; destruct Hr as [<-|[]]; discriminate. }
  split; [exact Hload|]. split; [exact Hvalid|]. split; [exact Hnone|].
  exact (proj1 (proj2 (proj2
           (app_warns_without_merchant_rows w tx "M001" whole_range
                                            Hload Hvalid Hnone)))).
Defined.

Lemma range_filter_window_witness :
  let d := daily scenario_rows in
  StronglySorted ts_lt (map date_ d) /\
  min_date d = Some (jan 1) /\ max_date d = Some (jan 2) /\
  StronglySorted ts_lt (map date_ (range_filter d (jan 1) (jan 2))) /\
  range_filter d (jan 1) (jan 2) = d.
Proof.
  intros d.
  assert (Hs : StronglySorted ts_lt (map date_ d)).
  { vm_compute. repeat constructor; unfold ts_lt, date_lt; simpl; lia. }
  assert (Hmin : min_date d = Some (jan 1)) by (vm_compute; reflexivity).
  assert (Hmax : max_date d = Some (jan 2)) by (vm_compute; reflexivity).
  destruct (range_filter_window d (jan 1) (jan 2)) as (_ & _ & _ & Hsorted & Hnoop).
  split; [exact Hs|]. split; [exact Hmin|]. split; [exact Hmax|].
  split; [exact (Hsorted Hs) | exact (Hnoop Hmin Hmax)].
Defined.

(** The window [2024-01-02, 2024-01-02] over the scenario keeps the one
    record of that day. *)
Example range_filter_one_day :
  range_filter (daily scenario_rows) (jan 2) (jan 2) =
  [mkDaily (midnight (jan 2)) (of_int 0) 1 (Some (of_int 0))].
Proof. same_values. Qed.

(** A run of the whole script: five lines, one of another merchant, one
    with blanks around the identifier, one with a date that does not parse. *)
Example app_on_csv_scenario :
  fst (app "M001" whole_range (one_file csv_scenario)) =
  Rendered [ mkDaily (midnight (jan 1)) (of_int 150) 2 (Some (of_int 75));
             mkDaily (midnight (jan 2)) (of_int 0) 1 (Some (of_int 0)) ].
Proof. same_values. Qed.

(* ------------------------------------------------------------------ *)
(** * Further properties *)

(** ** Looking up the user record *)

Lemma find_first {A : Type} (f : A -> bool) (l : list A) (x : A) :
  find f l = Some x ->
  exists pre post,
    l = pre ++ x :: post /\ f x = true /\ Forall (fun y => f y = false) pre.
Proof.
  induction l as [|a l IH]; simpl; [discriminate|].
  destruct (f a) eqn:E.
  - intros [= <-]. exists [], l; repeat split; auto.
  - intros Hf. destruct (IH Hf) as (pre & post & -> & Hx & Hpre).
    exists (a :: pre), post; repeat split; auto.
Qed.

Lemma dict_get_In {V : Type} (k : string) (d : Dict V) (v : V) :
  dict_get k d = Some v -> In (k, v) d.
Proof.
  unfold dict_get. destruct (find _ d) as [[k' v']|] eqn:E; [|discriminate].
  simpl; intros [= <-]. apply find_some in E as [Hin Hk].
  apply String.eqb_eq in Hk; simpl in Hk; now subst.
Qed.

Lemma dict_get_None {V : Type} (k : string) (d : Dict V) :
  dict_get k d = None <-> ~ In k (keys d).
Proof.
  unfold dict_get, keys. destruct (find _ d) as [[k' v']|] eqn:E; simpl.
  - split; [discriminate|]. intros Hn; exfalso; apply Hn.
    apply find_some in E as [Hin Hk]. apply String.eqb_eq in Hk; simpl in Hk; subst.
    apply (in_map fst) in Hin; exact Hin.
  - split; [|reflexivity]. intros _ Hin.
    apply in_map_iff in Hin as ([k' v'] & <- & Hin).
    apply (find_none _ _ E) in Hin. simpl in Hin.
    now rewrite String.eqb_refl in Hin.
Qed.

Lemma dict_get_unique {V : Type} (k : string) (d : Dict V) (v : V) :
  NoDup (keys d) -> In (k, v) d -> dict_get k d = Some v.
Proof.
  unfold dict_get, keys; induction d as [|[k' v'] d IH]; simpl; [tauto|].
  intros N [E|Hin].
  - injection E as -> ->. now rewrite String.eqb_refl.
  - inversion N as [|? ? Hnotin N']; subst.
    destruct (String.eqb k' k) eqn:Ek; [|auto].
    apply String.eqb_eq in Ek; subst.
    exfalso; apply Hnotin. apply (in_map fst) in Hin; exact Hin.
Qed.

Section IdentityFacts.
Variable casefold : string -> string.
Implicit Types (cfg : Dict UserRecord) (uname : option string).

(** X1.  No record is found exactly when no key of the configuration equals
    the user name up to case (a missing user name counting as the text
    "None"). *)
Theorem get_user_record_none_iff cfg uname :
  get_user_record casefold cfg uname = None <->
  forall k, In k (keys cfg) -> casefold k <> casefold (py_str uname).
Proof.
  unfold get_user_record; split.
  - intros Hnone k Hk Ecf.
    destruct (match uname with Some u => dict_get u cfg | None => None end);
      [discriminate|].
    destruct (find _ cfg) as [kv|] eqn:F; [discriminate|].
    apply in_map_iff in Hk as ([k' v] & <- & Hin).
    apply (find_none _ _ F) in Hin; simpl in Hin, Ecf.
    rewrite Ecf, String.eqb_refl in Hin; discriminate.
  - intros Hall.
    assert (Hexact : match uname with Some u => dict_get u cfg | None => None end = None).
    { destruct uname as [u|]; [|reflexivity].
      destruct (dict_get u cfg) as [v|] eqn:E; [|reflexivity].
      apply dict_get_In in E. exfalso; apply (Hall u); [|reflexivity].
      apply (in_map fst) in E; exact E. }
    rewrite Hexact.
    destruct (find _ cfg) as [[k v]|] eqn:F; [|reflexivity].
    apply find_some in F as [Hin Hk]. apply String.eqb_eq in Hk; simpl in Hk.
    exfalso; apply (Hall k); [|exact Hk].
    apply (in_map fst) in Hin; exact Hin.
Qed.

(** X2.  A record that is found is either the record under the user name
    itself, or, when the user name is no key, the record of the first key in
    the order of the configuration that equals the user name up to case. *)
Theorem get_user_record_first_match cfg uname (v : UserRecord) :
  get_user_record casefold cfg uname = Some v ->
  (exists u, uname = Some u /\ In (u, v) cfg) \/
  ((forall u, uname = Some u -> ~ In u (keys cfg)) /\
   exists pre k post,
     cfg = pre ++ (k, v) :: post /\
     casefold k = casefold (py_str uname) /\
     Forall (fun kv => casefold (fst kv) <> casefold (py_str uname)) pre).
Proof.
  unfold get_user_record.
  destruct (match uname with Some u => dict_get u cfg | None => None end)
    as [v0|] eqn:Hexact.
  - intros [= <-]. left. destruct uname as [u|]; [|discriminate].
    exists u; split; [reflexivity | now apply dict_get_In].
  - intros Hf. right. split.
    + intros u ->. now apply dict_get_None.
    + destruct (find _ cfg) as [[k v']|] eqn:F; [|discriminate].
      simpl in Hf; injection Hf as ->.
      apply find_first in F as (pre & post & -> & Hk & Hpre).
      exists pre, k, post. split; [reflexivity|].
      split; [now apply String.eqb_eq in Hk|].
      eapply Forall_impl; [|exact Hpre]. intros kv Hkv; simpl in Hkv.
      now apply String.eqb_neq in Hkv.
Qed.

(** X3.  The exact key has priority: in a configuration without repeated
    keys, a user name that is a key gets the record stored under it, also
    when an earlier key differs from it only by case. *)
Theorem get_user_record_exact_first cfg (u : string) (v : UserRecord) :
  NoDup (keys cfg) -> In (u, v) cfg ->
  get_user_record casefold cfg (Some u) = Some v.
Proof.
  intros N Hin. unfold get_user_record.
  now rewrite (dict_get_unique u cfg v N Hin).
Qed.

(** X4.  The fallback ignores case: two user names that are equal up to
    case, neither of them a key, get the same answer. *)
Theorem get_user_record_ignores_case cfg (u1 u2 : string) :
  casefold u1 = casefold u2 ->
  ~ In u1 (keys cfg) -> ~ In u2 (keys cfg) ->
  get_user_record casefold cfg (Some u1) = get_user_record casefold cfg (Some u2).
Proof.
  intros Ecf H1 H2. unfold get_user_record.
  apply dict_get_None in H1, H2. rewrite H1, H2; simpl. now rewrite Ecf.
Qed.

End IdentityFacts.

(** ** Building the credentials *)


(** ** Building the credentials *)

Lemma credential_of_inr (u : UserRecord) (c : Credential) :
  credential_of u = inr c <->
  dict_get "name" u = Some (cred_name c) /\
  dict_get "email" u = Some (cred_email c) /\
  dict_get "password_hash" u = Some (cred_password c).
Proof.
  unfold credential_of.
  destruct (dict_get "name" u) as [n|]; [|split; [discriminate | intros ([=] & _)]].
  destruct (dict_get "email" u) as [e|]; [|split; [discriminate | intros (_ & [=] & _)]].
  destruct (dict_get "password_hash" u) as [p|];
    [|split; [discriminate | intros (_ & _ & [=])]].
  destruct c as [n' e' p']; simpl; split.
  - intros [= -> -> ->]; auto.
  - intros ([= ->] & [= ->] & [= ->]); reflexivity.
Qed.

Lemma credential_of_inl (u : UserRecord) (key : string) :
  credential_of u = inl key ->
  In key ["name"; "email"; "password_hash"] /\ dict_get key u = None.
Proof.
  unfold credential_of.
  destruct (dict_get "name" u) eqn:En; [|intros [= <-]; simpl; auto].
  destruct (dict_get "email" u) eqn:Ee; [|intros [= <-]; simpl; auto].
  destruct (dict_get "password_hash" u) eqn:Ep; [discriminate|].
  intros [= <-]; simpl; auto.
Qed.

(** X5.  The credentials are built exactly when every user record has the
    fields [name], [email] and [password_hash]: then there is one entry per
    user, under the same name and in the same order, holding these three
    fields (the password is the stored hash).  Otherwise the loop raises
    [KeyError] for a field that some user lacks. *)
Theorem build_creds_spec (users_cfg : Dict UserRecord) :
  (forall cs, build_creds users_cfg = inr cs <->
              Forall2 credential_matches users_cfg cs) /\
  (forall key, build_creds users_cfg = inl key ->
               In key ["name"; "email"; "password_hash"] /\
               exists uname u, In (uname, u) users_cfg /\ dict_get key u = None).
Proof.
  induction users_cfg as [|[uname u] rest [IHr IHl]]; simpl.
  - split.
    + intros cs; split; [intros [= <-]; constructor | intros F; now inversion F].
    + discriminate.
  - split.
    + intros cs. destruct (credential_of u) as [key|c] eqn:Ec.
      * split; [discriminate|]. intros F; inversion F as [|? [un c'] ? ? Hm F']; subst.
        destruct Hm as (_ & Hm). apply credential_of_inr in Hm. simpl in Hm.
        congruence.
      * destruct (build_creds rest) as [key|cs0] eqn:Eb.
        -- split; [discriminate|]. intros F; inversion F as [|? ? ? cs' _ F']; subst.
           apply IHr in F'; discriminate.
        -- split.
           ++ intros [= <-]. constructor; [|now apply IHr].
              split; [reflexivity|]. now apply credential_of_inr.
           ++ intros F; inversion F as [|? [un c'] ? cs' Hm F']; subst.
              destruct Hm as (Hn & Hm); simpl in Hn, Hm; subst.
              apply credential_of_inr in Hm. apply IHr in F'.
              rewrite Ec in Hm. injection Hm as ->. injection F' as ->.
              reflexivity.
    + intros key. destruct (credential_of u) as [k|c] eqn:Ec.
      * intros [= <-]. apply credential_of_inl in Ec as [Hk Hu].
        split; [exact Hk|]. exists uname, u; auto.
      * destruct (build_creds rest) as [k|cs0] eqn:Eb; [|discriminate].
        intros [= <-]. destruct (IHl k eq_refl) as (Hk & un & u' & Hin & Hu).
        split; [exact Hk|]. exists un, u'; auto.
Qed.

(** ** The gates before the data *)

(** X6.  The logged-in part runs only when the credentials could be built,
    the session is authenticated and the user name resolves to a record with
    a [merchant_id]; it then runs for exactly this identifier.  In every
    other case the run stops before any file is read. *)
Theorem main_reads_only_behind_gates {cell : Type} `{Cells cell}
        (casefold : string -> string) (repr_list : list string -> string)
        (users_cfg : Dict UserRecord) (session : Session)
        (date_input : date -> date -> date * date) (w : World cell) :
  match fst (main casefold repr_list users_cfg session date_input w) with
  | Portal o =>
      (exists cs, build_creds users_cfg = inr cs) /\
      authentication_status session = Some true /\
      exists merchant_rec merchant_id,
        get_user_record casefold users_cfg (username session) = Some merchant_rec /\
        dict_get "merchant_id" merchant_rec = Some merchant_id /\
        app merchant_id date_input w =
        (o, snd (main casefold repr_list users_cfg session date_input w))
  | _ => snd (main casefold repr_list users_cfg session date_input w) = w
  end.
Proof.
  unfold main. destruct (build_creds users_cfg) as [key|cs]; [reflexivity|].
  destruct (authentication_status session) as [[|]|]; try reflexivity.
  unfold merchant_id_of.
  destruct (get_user_record casefold users_cfg (username session))
    as [[|f rec]|] eqn:Eg; try reflexivity.
  destruct (dict_get "merchant_id" (f :: rec)) as [m|] eqn:Em; [|reflexivity].
  unfold bind, ret. destruct (app m date_input w) as [o w'] eqn:Ea; simpl.
  split; [eauto|]. split; [reflexivity|].
  exists (f :: rec), m; auto.
Qed.

(** ** What the aggregate depends on *)

Lemma group_amounts {cell : Type} (mtx : list (TxRow cell)) (k : option date) :
  map settle_amount (group mtx k) =
  map snd (filter (fun p => if key_eq_dec (fst p) k then true else false)
                  (map day_amount mtx)).
Proof.
  unfold group; induction mtx as [|r mtx IH]; simpl; [reflexivity|].
  destruct (key_eq_dec (group_key r) k); simpl; now rewrite IH.
Qed.

Lemma dates_via_day_amount {cell : Type} (mtx : list (TxRow cell)) :
  dates mtx = somes (sort_by key_leb (nodup key_eq_dec (map fst (map day_amount mtx)))).
Proof. unfold dates, group_keys; now rewrite map_map. Qed.

Lemma daily_of_day_amounts {c1 c2 : Type}
      (mtx1 : list (TxRow c1)) (mtx2 : list (TxRow c2)) :
  map day_amount mtx1 = map day_amount mtx2 -> daily mtx1 = daily mtx2.
Proof.
  intros E. rewrite !daily_unfold, !dates_via_day_amount, E.
  apply map_ext; intros d. unfold day_record.
  now rewrite !group_amounts, E.
Qed.


Lemma filter_perm {A : Type} (f : A -> bool) (l1 l2 : list A) :
  Permutation l1 l2 -> Permutation (filter f l1) (filter f l2).
Proof.
  induction 1 as [|x l1 l2 P IH|x y l|l1 l2 l3 P1 IH1 P2 IH2]; simpl.
  - constructor.
  - destruct (f x); [now constructor | exact IH].
  - destruct (f x), (f y); try reflexivity. apply perm_swap.
  - now transitivity (filter f l2).
Qed.

Lemma agg_count_perm (xs ys : list (option Qc)) :
  Permutation xs ys -> agg_count xs = agg_count ys.
Proof.
  intros P; unfold agg_count; f_equal.
  apply Permutation_length, filter_perm, P.
Qed.

(** X8.  The order of the rows in the table does not matter for the days
    and their order counts: two tables with the same rows in a different
    order give the same dates and, date by date, the same counts. *)
Theorem daily_dates_orders_permutation {cell : Type} (mtx1 mtx2 : list (TxRow cell)) :
  Permutation mtx1 mtx2 ->
  map (fun rec => (date_ rec, orders rec)) (daily mtx1) =
  map (fun rec => (date_ rec, orders rec)) (daily mtx2).
Proof.
  intros P. rewrite !daily_unfold, !map_map.
  assert (Hd : dates mtx1 = dates mtx2).
  { apply (strongly_sorted_ext date_lt).
    - apply date_lt_irrefl.
    - unfold date_lt; lia.
    - apply dates_strictly_sorted.
    - apply dates_strictly_sorted.
    - intros d; rewrite !dates_In; split; intros (r & Hr & E); exists r;
        (split; [|exact E]).
      + eapply Permutation_in; [exact P | exact Hr].
      + eapply Permutation_in; [symmetry; exact P | exact Hr]. }
  rewrite Hd. apply map_ext; intros d. simpl. f_equal.
  apply agg_count_perm, Permutation_map, filter_perm, P.
Qed.

(** ** Totals over the days *)

Section GroupSums.
Context {cell : Type} {M : Type} (add : M -> M -> M) (zero : M).
Hypothesis add_assoc : forall x y z, add x (add y z) = add (add x y) z.
Hypothesis add_comm : forall x y, add x y = add y x.
Hypothesis add_zero : forall x, add zero x = x.
Variable wt : TxRow cell -> M.

Local Abbreviation sum_all := (fold_right add zero).
Local Abbreviation sum_of := (fun l => fold_right add zero (map wt l)).

Lemma sum_zeros {A : Type} (l : list A) : sum_all (map (fun _ => zero) l) = zero.
Proof. induction l; simpl; [reflexivity | now rewrite IHl, add_zero]. Qed.

Lemma sum_indicator (ds : list date) (d0 : date) (x : M) (S : date -> M) :
  NoDup ds ->
  sum_all (map (fun d => if date_eq_dec d d0 then add x (S d) else S d) ds) =
  add (if in_dec date_eq_dec d0 ds then x else zero) (sum_all (map S ds)).
Proof.
  induction 1 as [|a ds Ha N IH]; simpl.
  - now rewrite add_zero.
  - rewrite IH. destruct (date_eq_dec a d0) as [->|Hne].
    + destruct (in_dec date_eq_dec d0 ds); [contradiction|].
      now rewrite add_zero, add_assoc.
    + destruct (in_dec date_eq_dec d0 ds).
      * now rewrite !add_assoc, (add_comm (S a) x).
      * now rewrite !add_zero.
Qed.

Lemma sum_over_days (ds : list date) (rows : list (TxRow cell)) :
  NoDup ds ->
  (forall r d, In r rows -> group_key r = Some d -> In d ds) ->
  sum_all (map (fun d => sum_of (filter (on_date d) rows)) ds) =
  sum_of (filter has_date rows).
Proof.
  intros N; induction rows as [|r rows IH]; intros Hcover.
  - simpl. apply sum_zeros.
  - assert (IH' := IH (fun r' d Hr => Hcover r' d (or_intror Hr))). clear IH.
    destruct (group_key r) as [d0|] eqn:Ek.
    + assert (Hd : has_date r = true).
      { unfold has_date. unfold group_key, dt_date in Ek.
        destruct (transaction_date r); [reflexivity | discriminate]. }
      simpl; rewrite Hd; simpl. rewrite <- IH'.
      rewrite (map_ext _ (fun d => if date_eq_dec d d0
                                   then add (wt r) (sum_of (filter (on_date d) rows))
                                   else sum_of (filter (on_date d) rows))).
      * rewrite sum_indicator by exact N.
        destruct (in_dec date_eq_dec d0 ds) as [|Hn]; [reflexivity|].
        exfalso; apply Hn, (Hcover r d0); [now left | exact Ek].
      * intros d. unfold on_date at 1. rewrite Ek.
        destruct (key_eq_dec (Some d0) (Some d)) as [E|Hne];
          destruct (date_eq_dec d d0) as [E'|Hne']; try reflexivity.
        -- exfalso; apply Hne'; congruence.
        -- exfalso; apply Hne; congruence.
    + assert (Hd : has_date r = false).
      { unfold has_date. unfold group_key, dt_date in Ek.
        destruct (transaction_date r); [discriminate | reflexivity]. }
      simpl; rewrite Hd. rewrite <- IH'.
      apply f_equal, map_ext; intros d. unfold on_date at 1. rewrite Ek.
      destruct (key_eq_dec None (Some d)); [discriminate | reflexivity].
Qed.

End GroupSums.

Lemma count_as_sum {cell : Type} (l : list (TxRow cell)) :
  Z.of_nat (List.length (filter has_amount l)) =
  fold_right Z.add 0 (map one_if_amount l).
Proof.
  induction l as [|r l IH]; simpl; [reflexivity|].
  unfold one_if_amount at 1. destruct (has_amount r); simpl List.length; lia.
Qed.

Lemma filter_fuse {A : Type} (f g : A -> bool) (l : list A) :
  filter f (filter g l) = filter (fun x => g x && f x) l.
Proof.
  induction l as [|x l IH]; simpl; [reflexivity|].
  destruct (g x); simpl; [destruct (f x)|]; now rewrite IH.
Qed.

Lemma total_orders_sum (d : list DailyRow) :
  total_orders d = fold_right Z.add 0 (map orders d).
Proof.
  destruct d as [|x d]; [reflexivity|]. unfold total_orders.
  apply fold_symmetric; intros; lia.
Qed.

Lemma dates_cover {cell : Type} (mtx : list (TxRow cell)) (r : TxRow cell) (d : date) :
  In r mtx -> group_key r = Some d -> In d (dates mtx).
Proof. intros Hr Hk; apply dates_In; eauto. Qed.

(** X9.  Nothing is lost or counted twice between the table and the days:
    the total of the daily order counts is the number of the merchant's rows
    that have both a date and an amount. *)
Theorem total_orders_counts_rows {cell : Type} (mtx : list (TxRow cell)) :
  total_orders (daily mtx) = Z.of_nat (List.length (filter counted mtx)).
Proof.
  rewrite total_orders_sum, daily_unfold, map_map.
  rewrite (map_ext _ (fun d => fold_right Z.add 0
                                 (map one_if_amount (filter (on_date d) mtx)))).
  - rewrite (sum_over_days Z.add 0).
    + rewrite <- count_as_sum, filter_fuse. reflexivity.
    + intros; lia.
    + intros; lia.
    + intros; lia.
    + apply dates_NoDup.
    + apply dates_cover.
  - intros d; simpl. rewrite (agg_count_length (group mtx (Some d))).
    apply count_as_sum.
Qed.

Lemma daily_orders_nonneg {cell : Type} (mtx : list (TxRow cell)) :
  Forall (fun rec => 0 <= orders rec) (daily mtx).
Proof.
  apply Forall_forall; intros rec Hin.
  apply daily_In in Hin as (d & -> & _); simpl. unfold agg_count; lia.
Qed.

Lemma sum_filter_le (f : DailyRow -> bool) (d : list DailyRow) :
  Forall (fun rec => 0 <= orders rec) d ->
  0 <= fold_right Z.add 0 (map orders (filter f d)) <=
  fold_right Z.add 0 (map orders d).
Proof.
  induction 1 as [|x d Hx F IH]; simpl; [lia|].
  destruct (f x); simpl; lia.
Qed.

(** X11.  Narrowing the date window never raises the order total: the total
    over the shown days is between 0 and the total over all days. *)
Theorem total_orders_range_bounded {cell : Type} (mtx : list (TxRow cell))
        (start_date end_date : date) :
  0 <= total_orders (range_filter (daily mtx) start_date end_date)
    <= total_orders (daily mtx).
Proof.
  rewrite !total_orders_sum. apply sum_filter_le, daily_orders_nonneg.
Qed.

(** ** The window and the latest day *)

Lemma last_map {A B : Type} (f : A -> B) (l : list A) (a : A) (b : B) :
  l <> [] -> last (map f l) b = f (last l a).
Proof.
  induction l as [|x l IH]; [congruence|]; intros _.
  destruct l as [|y l]; [reflexivity|].
  change (last (map f (y :: l)) b = f (last (y :: l) a)).
  apply IH; discriminate.
Qed.

Lemma last_In {A : Type} (l : list A) (a : A) : l <> [] -> In (last l a) l.
Proof.
  induction l as [|x l IH]; [congruence|]; intros _.
  destruct l as [|y l]; [now left|]. right; apply IH; discriminate.
Qed.

Lemma strongly_sorted_last {A : Type} (R : A -> A -> Prop) (l : list A) (a : A) :
  StronglySorted R l -> forall y, In y l -> y = last l a \/ R y (last l a).
Proof.
  induction 1 as [|x l S IH F]; intros y Hy; [contradiction|].
  destruct l as [|z l]; [destruct Hy as [<-|[]]; now left|].
  change (y = last (z :: l) a \/ R y (last (z :: l) a)).
  destruct Hy as [<-|Hy]; [|now apply IH].
  right. rewrite Forall_forall in F. apply F, last_In; discriminate.
Qed.

Lemma strongly_sorted_of_map {A B : Type} (R : B -> B -> Prop) (f : A -> B)
      (l : list A) :
  StronglySorted R (map f l) -> StronglySorted (fun a b => R (f a) (f b)) l.
Proof.
  induction l as [|x l IH]; simpl; intros S; [constructor|].
  apply StronglySorted_inv in S as [S F]. constructor; [auto|].
  rewrite Forall_forall in *; intros y Hy. apply F, in_map, Hy.
Qed.

Lemma day_record_no_orders {cell : Type} (mtx : list (TxRow cell)) (d : date) :
  orders (day_record mtx d) = 0 -> aov (day_record mtx d) = None.
Proof.
  simpl. intros ->. reflexivity.
Qed.

(** X12.  The "Latest AOV" tile shows the average order value of the latest
    day in the window: every other shown day is strictly earlier.  It shows
    no value when that day has an order count of 0. *)
Theorem aov_latest_is_latest_day {cell : Type} (mtx : list (TxRow cell))
        (start_date end_date : date) :
  let shown := range_filter (daily mtx) start_date end_date in
  shown <> [] ->
  exists latest,
    In latest shown /\
    aov_latest shown = aov latest /\
    (forall rec, In rec shown ->
                 rec = latest \/
                 date_lt (ts_date (date_ rec)) (ts_date (date_ latest))) /\
    (orders latest = 0 -> aov_latest shown = None).
Proof.
  intros shown Hne.
  set (dflt := mkDaily (midnight start_date) (of_int 0) 0 None).
  exists (last shown dflt).
  assert (Hlast : In (last shown dflt) shown) by now apply last_In.
  assert (Haov : aov_latest shown = aov (last shown dflt)).
  { unfold aov_latest. destruct shown as [|x l] eqn:E; [congruence|].
    apply last_map; discriminate. }
  split; [exact Hlast|]. split; [exact Haov|]. split.
  - apply (strongly_sorted_last
             (fun a b => date_lt (ts_date (date_ a)) (ts_date (date_ b)))).
    apply (strongly_sorted_of_map date_lt (fun rec => ts_date (date_ rec))).
    eapply subseq_strongly_sorted.
    + apply subseq_map, subseq_filter.
    + rewrite daily_unfold, map_map; simpl. rewrite map_id.
      apply dates_strictly_sorted.
  - rewrite Haov.
    assert (Hd : In (last shown dflt) (daily mtx)).
    { unfold shown, range_filter in Hlast. now apply filter_In in Hlast. }
    apply daily_In in Hd as (d & -> & _). apply day_record_no_orders.
Qed.

Lemma filter_none {A : Type} (f : A -> bool) (l : list A) :
  (forall x, In x l -> f x = false) -> filter f l = [].
Proof.
  induction l as [|x l IH]; simpl; intros Hall; [reflexivity|].
  rewrite (Hall x (or_introl eq_refl)). apply IH; auto.
Qed.

(** X13.  A window whose end lies before its start shows nothing (and is no
    error). *)
Theorem range_filter_reversed_window (d : list DailyRow) (start_date end_date : date) :
  date_leb start_date end_date = false ->
  range_filter d start_date end_date = [].
Proof.
  intros Hrev. apply filter_none; intros rec _. unfold in_range.
  destruct (date_leb start_date (ts_date (date_ rec))) eqn:E1; [|reflexivity].
  destruct (date_leb (ts_date (date_ rec)) end_date) eqn:E2; [|reflexivity].
  rewrite (date_leb_trans _ _ _ E1 E2) in Hrev; discriminate.
Qed.

(** ** The script on the file it reads *)

Section OnTheFile.
Context {cell : Type} `{Cells cell}.

Lemma load_transactions_first_file (w : World cell) :
  fst (load_transactions w) =
  match first_file w with
  | Some (p, df) => inr (set_column "__path__" (str_cell p) df)
  | None => inl (FileNotFoundError not_found_msg)
  end.
Proof.
  unfold load_transactions, first_file, candidates, load_loop, bind, read_csv, ret.
  simpl. destruct (files w "sample_merchant_transactions.csv"); simpl; [reflexivity|].
  destruct (files w "data/sample_merchant_transactions.csv"); reflexivity.
Qed.

Lemma missing_tagged (v : cell) (df : DataFrame cell) :
  missing (set_column "__path__" v df) = missing df.
Proof.
  unfold missing, set_column; cbn [columns].
  destruct (mem "__path__" (columns df)); [reflexivity|].
  apply filter_ext_in; intros n Hn. f_equal.
  unfold mem. rewrite existsb_app.
  unfold needed in Hn; cbn [In] in Hn.
  destruct Hn as [<-|[<-|[<-|[]]]]; cbn [existsb]; apply orb_false_r.
Qed.

Lemma clean_tagged (v : cell) (df : DataFrame cell) :
  map fields (clean (set_column "__path__" v df)) = map fields (clean df).
Proof.
  unfold clean, set_column; simpl. rewrite !map_map.
  apply map_ext; intros r; reflexivity.
Qed.

Lemma cons_fields (a b : TxRow cell) (l1 l2 : list (TxRow cell)) :
  map fields (a :: l1) = map fields (b :: l2) ->
  merchant a = merchant b /\ transaction_date a = transaction_date b /\
  settle_amount a = settle_amount b /\ map fields l1 = map fields l2.
Proof.
  unfold fields; simpl; intros E; injection E; auto.
Qed.

Lemma merchant_tx_fields (l1 l2 : list (TxRow cell)) (merchant_id : string) :
  map fields l1 = map fields l2 ->
  map fields (merchant_tx l1 merchant_id) = map fields (merchant_tx l2 merchant_id).
Proof.
  unfold merchant_tx. revert l2; induction l1 as [|a l1 IH]; intros [|b l2] E;
    try discriminate E; [reflexivity|].
  apply cons_fields in E as (Em & Et & Ea & E). specialize (IH l2 E).
  cbn [filter]. rewrite Em.
  destruct (String.eqb (merchant b) merchant_id); [|exact IH].
  cbn [map]. rewrite IH. unfold fields. now rewrite Em, Et, Ea.
Qed.

Lemma fields_day_amount (l1 l2 : list (TxRow cell)) :
  map fields l1 = map fields l2 -> map day_amount l1 = map day_amount l2.
Proof.
  revert l2; induction l1 as [|a l1 IH]; intros [|b l2] E;
    try discriminate E; [reflexivity|].
  apply cons_fields in E as (Em & Et & Ea & E).
  cbn [map]. rewrite (IH l2 E). unfold day_amount, group_key.
  now rewrite Et, Ea.
Qed.

(** X15.  The [__path__] tag that the loader adds changes nothing
    downstream: the tagged table has the same missing required columns, its
    merchant filter keeps the same rows (same merchant, date and amount, in
    the same order), and the daily aggregate is the same. *)
Theorem path_tag_changes_nothing (v : cell) (df : DataFrame cell)
        (merchant_id : string) :
  missing (set_column "__path__" v df) = missing df /\
  map fields (merchant_tx (clean (set_column "__path__" v df)) merchant_id) =
  map fields (merchant_tx (clean df) merchant_id) /\
  daily (merchant_tx (clean (set_column "__path__" v df)) merchant_id) =
  daily (merchant_tx (clean df) merchant_id).
Proof.
  pose proof (merchant_tx_fields _ _ merchant_id (clean_tagged v df)) as E.
  split; [apply missing_tagged|]. split; [exact E|].
  apply daily_of_day_amounts, fields_day_amount, E.
Qed.


(** X17.  The caption names the file that was read: every row of the
    merchant carries in [__path__] the location of the first candidate that
    read, and the caption shows the tag of the first of these rows. *)
Theorem caption_names_loaded_file (merchant_id : string) (w : World cell)
        (tx : DataFrame cell) :
  fst (load_transactions w) = inr tx ->
  merchant_tx (clean tx) merchant_id <> [] ->
  exists p df,
    first_file w = Some (p, df) /\
    Forall (fun r => other r "__path__" = str_cell p)
           (merchant_tx (clean tx) merchant_id) /\
    caption_source (merchant_tx (clean tx) merchant_id) = Some (str_cell p).
Proof.
  rewrite load_transactions_first_file.
  destruct (first_file w) as [[p df]|]; [|discriminate].
  intros [= <-] Hne. exists p, df. split; [reflexivity|].
  assert (Hall : Forall (fun r => other r "__path__" = str_cell p)
                        (merchant_tx (clean (set_column "__path__" (str_cell p) df))
                                     merchant_id)).
  { apply Forall_forall; intros r Hr.
    apply filter_In in Hr as [Hr _]. unfold clean in Hr.
    apply in_map_iff in Hr as (r0 & <- & Hr0). simpl.
    destruct (set_column_tagged "__path__" (str_cell p) df) as (_ & Htag & _).
    rewrite Forall_forall in Htag. now apply Htag. }
  split; [exact Hall|].
  destruct (merchant_tx _ merchant_id) as [|r l]; [congruence|].
  simpl. f_equal. now inversion Hall.
Qed.

End OnTheFile.

(** ** The further theorems at concrete inputs *)

Lemma get_user_record_none_iff_witness :
  (forall k, In k (keys two_users) -> lower k <> lower (py_str (Some "m002"))) /\
  get_user_record lower two_users (Some "m002") = None.
Proof.
  assert (Hall : forall k, In k (keys two_users) ->
                           lower k <> lower (py_str (Some "m002"))).
  { intros k [<-|[<-|[]]]; vm_compute; discriminate. }
  split; [exact Hall|].
  exact (proj2 (get_user_record_none_iff lower two_users (Some "m002")) Hall).
Defined.

Lemma get_user_record_first_match_witness :
  get_user_record lower shop_users (Some "shop") =
    Some (user "Shop one" "one@example.com" "hash1" "M001") /\
  ((exists u, Some "shop" = Some u /\
              In (u, user "Shop one" "one@example.com" "hash1" "M001") shop_users) \/
   ((forall u, Some "shop" = Some u -> ~ In u (keys shop_users)) /\
    exists pre k post,
      shop_users = pre ++ (k, user "Shop one" "one@example.com" "hash1" "M001") :: post /\
      lower k = lower (py_str (Some "shop")) /\
      Forall (fun kv => lower (fst kv) <> lower (py_str (Some "shop"))) pre)).
Proof.
  assert (Hget : get_user_record lower shop_users (Some "shop") =
                 Some (user "Shop one" "one@example.com" "hash1" "M001"))
    by reflexivity.
  split; [exact Hget|].
  exact (get_user_record_first_match lower shop_users (Some "shop") _ Hget).
Defined.

Lemma get_user_record_exact_first_witness :
  NoDup (keys two_users) /\
  In ("m001", user "Merchant a" "low@example.com" "hashL" "M009") two_users /\
  get_user_record lower two_users (Some "m001") =
    Some (user "Merchant a" "low@example.com" "hashL" "M009").
Proof.
  assert (N : NoDup (keys two_users)).
  { repeat constructor; simpl; intuition discriminate. }
  assert (Hin : In ("m001", user "Merchant a" "low@example.com" "hashL" "M009")
                   two_users) by (right; left; reflexivity).
  split; [exact N|]. split; [exact Hin|].
  exact (get_user_record_exact_first lower two_users "m001" _ N Hin).
Defined.

Lemma get_user_record_ignores_case_witness :
  lower "shop" = lower "sHOP" /\
  ~ In "shop" (keys shop_users) /\ ~ In "sHOP" (keys shop_users) /\
  get_user_record lower shop_users (Some "shop") =
  get_user_record lower shop_users (Some "sHOP").
Proof.
  assert (E : lower "shop" = lower "sHOP") by reflexivity.
  assert (H1 : ~ In "shop" (keys shop_users)) by (simpl; intuition discriminate).
  assert (H2 : ~ In "sHOP" (keys shop_users)) by (simpl; intuition discriminate).
  split; [exact E|]. split; [exact H1|]. split; [exact H2|].
  exact (get_user_record_ignores_case lower shop_users "shop" "sHOP" E H1 H2).
Defined.

Lemma build_creds_spec_witness :
  build_creds broken_users = inl "password_hash" /\
  In "password_hash" ["name"; "email"; "password_hash"] /\
  exists uname u, In (uname, u) broken_users /\ dict_get "password_hash" u = None.
Proof.
  assert (E : build_creds broken_users = inl "password_hash") by reflexivity.
  split; [exact E|].
  exact (proj2 (build_creds_spec broken_users) "password_hash" E).
Defined.


Lemma daily_dates_orders_permutation_witness :
  Permutation scenario_rows (rev scenario_rows) /\
  map (fun rec => (date_ rec, orders rec)) (daily scenario_rows) =
  map (fun rec => (date_ rec, orders rec)) (daily (rev scenario_rows)).
Proof.
  assert (P : Permutation scenario_rows (rev scenario_rows))
    by apply Permutation_rev.
  split; [exact P|].
  exact (daily_dates_orders_permutation scenario_rows (rev scenario_rows) P).
Defined.

Lemma aov_latest_is_latest_day_witness :
  range_filter (daily scenario_rows) (jan 1) (jan 2) <> [] /\
  exists latest,
    In latest (range_filter (daily scenario_rows) (jan 1) (jan 2)) /\
    aov_latest (range_filter (daily scenario_rows) (jan 1) (jan 2)) = aov latest /\
    (forall rec, In rec (range_filter (daily scenario_rows) (jan 1) (jan 2)) ->
                 rec = latest \/
                 date_lt (ts_date (date_ rec)) (ts_date (date_ latest))) /\
    (orders latest = 0 ->
     aov_latest (range_filter (daily scenario_rows) (jan 1) (jan 2)) = None).
Proof.
  assert (Hne : range_filter (daily scenario_rows) (jan 1) (jan 2) <> [])
    by (vm_compute; discriminate).
  split; [exact Hne|].
  exact (aov_latest_is_latest_day scenario_rows (jan 1) (jan 2) Hne).
Defined.

Lemma range_filter_reversed_window_witness :
  date_leb (jan 2) (jan 1) = false /\
  range_filter (daily scenario_rows) (jan 2) (jan 1) = [].
Proof.
  assert (Hrev : date_leb (jan 2) (jan 1) = false) by reflexivity.
  split; [exact Hrev|].
  exact (range_filter_reversed_window (daily scenario_rows) (jan 2) (jan 1) Hrev).
Defined.


Lemma caption_names_loaded_file_witness :
  let w := one_file csv_scenario in
  let tx := set_column "__path__" "sample_merchant_transactions.csv" csv_scenario in
  fst (load_transactions w) = inr tx /\
  merchant_tx (clean tx) "M001" <> [] /\
  caption_source (merchant_tx (clean tx) "M001") =
    Some "sample_merchant_transactions.csv".
Proof.
  intros w tx.
  assert (Hload : fst (load_transactions w) = inr tx) by reflexivity.
  assert (Hne : merchant_tx (clean tx) "M001" <> []) by (vm_compute; discriminate).
  split; [exact Hload|]. split; [exact Hne|].
  destruct (caption_names_loaded_file "M001" w tx Hload Hne)
    as (p & df & Hfile & _ & Hcap).
  vm_compute in Hfile. injection Hfile as <- _. exact Hcap.
Defined.

(* ------------------------------------------------------------------ *)
(** * The aggregation on machine numbers *)

Section MachineFacts.
Context {num : Type} {col : Machine.Column num}.
Implicit Types (mtx : list (Machine.Row num)) (d : list (Machine.DailyRow num)).

Lemma machine_dropna_In (l : list (option Timestamp * num * Z))
      (t : Timestamp) (r : num) (o : Z) :
  In (t, r, o) (Machine.dropna l) <-> In (Some t, r, o) l.
Proof.
  induction l as [|[[[t'|] r'] o'] l IH]; simpl.
  - tauto.
  - rewrite IH; split; intros [E|E]; auto; left; congruence.
  - rewrite IH; split; [auto | intros [E|E]; [discriminate | exact E]].
Qed.

Lemma machine_dt_date_inr (column : list (option Timestamp)) (keys : list (option date)) :
  Machine.dt_date column = inr keys <->
  forallb Machine.date_ok column = true /\ keys = map (option_map ts_date) column.
Proof.
  unfold Machine.dt_date. destruct (forallb Machine.date_ok column).
  - split; [intros [= <-]; auto | intros [_ ->]; reflexivity].
  - split; [discriminate | intros [[=] _]].
Qed.

(** The records of the aggregate, when it is produced: one for each
    calendar date that a row carries. *)
Lemma machine_daily_In mtx d (rec : Machine.DailyRow num) :
  Machine.daily mtx = inr d ->
  (In rec d <->
   exists dte, In (Some dte) (map (option_map ts_date) (map Machine.transaction_date mtx)) /\
               rec = machine_day_record mtx dte).
Proof.
  unfold Machine.daily.
  destruct (Machine.dt_date (map Machine.transaction_date mtx)) as [e|keys] eqn:Ek;
    [discriminate|].
  apply machine_dt_date_inr in Ek as [_ ->]. intros [= <-].
  unfold machine_day_record, Machine.sort_values, Machine.groupby_agg,
    Machine.dates_to_datetime.
  set (keys := map (option_map ts_date) (map Machine.transaction_date mtx)).
  set (amounts := map Machine.settle_amount mtx).
  rewrite in_map_iff. split.
  - intros ([[t r] o] & <- & Hin).
    apply sort_by_In, machine_dropna_In, in_map_iff in Hin
      as ([[k r'] o'] & E & Hin).
    apply in_map_iff in Hin as (k0 & E0 & Hk0).
    apply sort_by_In, nodup_In in Hk0.
    injection E0 as -> <- <-. destruct k as [dte|]; [|discriminate].
    simpl in E. injection E as <- <- <-.
    exists dte; split; [exact Hk0 | reflexivity].
  - intros (dte & Hk & ->).
    exists (midnight dte, Machine.group_sum (Machine.group keys amounts (Some dte)),
            Machine.agg_count (Machine.group keys amounts (Some dte))).
    split; [reflexivity|].
    apply sort_by_In, machine_dropna_In, in_map_iff.
    exists (Some dte, Machine.group_sum (Machine.group keys amounts (Some dte)),
            Machine.agg_count (Machine.group keys amounts (Some dte))).
    split; [reflexivity|]. apply in_map_iff.
    exists (Some dte); split; [reflexivity|].
    now apply sort_by_In, nodup_In.
Qed.

Lemma machine_daily_midnight mtx d (t : Timestamp) :
  Machine.daily mtx = inr d -> In t (map Machine.date_ d) -> t = midnight (ts_date t).
Proof.
  intros Hd Ht. apply in_map_iff in Ht as (rec & <- & Hrec).
  apply (machine_daily_In mtx d rec Hd) in Hrec as (dte & _ & ->). reflexivity.
Qed.

Lemma machine_daily_empty_iff mtx d :
  Machine.daily mtx = inr d ->
  (d = [] <-> forall r, In r mtx -> Machine.transaction_date r = None).
Proof.
  intros Hd; split.
  - intros -> r Hr. destruct (Machine.transaction_date r) as [t|] eqn:Et; [|reflexivity].
    exfalso. apply (proj2 (machine_daily_In mtx [] (machine_day_record mtx (ts_date t)) Hd)).
    exists (ts_date t); split; [|reflexivity].
    rewrite map_map. apply in_map_iff. exists r; split; [now rewrite Et | exact Hr].
  - intros Hall. destruct d as [|rec d']; [reflexivity|].
    destruct (proj1 (machine_daily_In mtx _ rec Hd) (or_introl eq_refl))
      as (dte & Hk & _).
    rewrite map_map in Hk. apply in_map_iff in Hk as (r & E & Hr).
    rewrite (Hall r Hr) in E; discriminate.
Qed.

Lemma machine_daily_raises_iff mtx :
  Machine.daily mtx = inl Machine.ValueError_date <->
  exists r t, In r mtx /\ Machine.transaction_date r = Some t /\
              Machine.representable (ts_date t) = false.
Proof.
  unfold Machine.daily, Machine.dt_date.
  destruct (forallb Machine.date_ok (map Machine.transaction_date mtx)) eqn:F.
  - split; [discriminate|]. intros (r & t & Hr & Et & Hrep).
    rewrite forallb_forall in F.
    assert (Hok : Machine.date_ok (Machine.transaction_date r) = true)
      by (apply F, in_map, Hr).
    rewrite Et in Hok; simpl in Hok; congruence.
  - split; [intros _ | reflexivity].
    assert (Hex : existsb (fun t => negb (Machine.date_ok t))
                          (map Machine.transaction_date mtx) = true).
    { clear -F. induction (map Machine.transaction_date mtx) as [|a l IH];
        simpl in *; [discriminate|].
      destruct (Machine.date_ok a); simpl in *; auto. }
    apply existsb_exists in Hex as (t0 & Hin & Hbad).
    apply in_map_iff in Hin as (r & <- & Hr).
    destruct (Machine.transaction_date r) as [t|] eqn:Et; [|discriminate].
    exists r, t; repeat split; auto. simpl in Hbad.
    now apply negb_true_iff in Hbad.
Qed.

Lemma machine_daily_inl mtx (e : Machine.Raise) :
  Machine.daily mtx = inl e -> e = Machine.ValueError_date.
Proof.
  unfold Machine.daily, Machine.dt_date.
  destruct (forallb Machine.date_ok (map Machine.transaction_date mtx));
    [discriminate | congruence].
Qed.

Lemma machine_range_filter_bounds_id d (lo hi : date) :
  Machine.min_date d = Some lo -> Machine.max_date d = Some hi ->
  Machine.range_filter d lo hi = d.
Proof.
  unfold Machine.min_date, Machine.max_date; intros Hmin Hmax.
  destruct (series_min (map Machine.date_ d)) as [tlo|] eqn:Elo; [|discriminate].
  destruct (series_max (map Machine.date_ d)) as [thi|] eqn:Ehi; [|discriminate].
  simpl in Hmin, Hmax. injection Hmin as <-. injection Hmax as <-.
  apply series_min_lower in Elo as [_ Hlo].
  apply series_max_upper in Ehi as [_ Hhi].
  rewrite Forall_forall in Hlo, Hhi.
  apply forallb_filter_id, forallb_forall. intros rec Hrec.
  assert (Hin : In (Machine.date_ rec) (map Machine.date_ d)) by now apply in_map.
  unfold Machine.in_range; apply andb_true_iff; split; apply ts_leb_date; auto.
Qed.

End MachineFacts.

(** ** NaN in a float64 division *)

Lemma SFeqb_irrefl_nan (s : SpecFloat.spec_float) :
  SpecFloat.SFeqb s s = false -> s = SpecFloat.S754_nan.
Proof.
  unfold SpecFloat.SFeqb, SpecFloat.SFcompare.
  destruct s as [b| b | |b m e]; try reflexivity.
  - discriminate.
  - destruct b; discriminate.
  - destruct b; rewrite Z.compare_refl, Pos.compare_refl; simpl; discriminate.
Qed.

Lemma is_nan_Prim2SF (x : PrimFloat.float) :
  PrimFloat.is_nan x = true <-> FloatOps.Prim2SF x = SpecFloat.S754_nan.
Proof.
  unfold PrimFloat.is_nan. rewrite FloatAxioms.eqb_spec, negb_true_iff. split.
  - apply SFeqb_irrefl_nan.
  - intros ->; reflexivity.
Qed.

(** NaN divided by anything is NaN. *)
Lemma div_nan (x y : PrimFloat.float) :
  PrimFloat.is_nan x = true -> PrimFloat.is_nan (PrimFloat.div x y) = true.
Proof.
  rewrite !is_nan_Prim2SF, FloatAxioms.div_spec. intros ->.
  unfold FloatAxioms.SF64div, SpecFloat.SFdiv. reflexivity.
Qed.

(** ** The claims on machine numbers *)

(** C2.  In every record of the daily aggregate the order count is a
    non-negative integer.  The average order value is the float64 quotient
    of the revenue by the order count, taken in every row and masked where
    the count is not positive: it is NaN when the count is 0, it is that
    quotient when the count is positive, and then it is still NaN when the
    revenue is NaN.  No step raises, also not for a divisor 0. *)
Theorem daily_aov_masked_quotient {num : Type} {col : Machine.Column num}
        (mtx : list (Machine.Row num)) (d : list (Machine.DailyRow num))
        (rec : Machine.DailyRow num) :
  Machine.daily mtx = inr d -> In rec d ->
  0 <= Machine.orders rec /\
  Machine.aov rec =
    Machine.where_ (Machine.truediv (Machine.revenue rec) (Machine.orders rec))
                   (0 <? Machine.orders rec) /\
  (Machine.orders rec = 0 -> PrimFloat.is_nan (Machine.aov rec) = true) /\
  (0 < Machine.orders rec ->
   Machine.aov rec =
     PrimFloat.div (Machine.to_float64 (Machine.revenue rec))
                   (Machine.of_count (Machine.orders rec)) /\
   (PrimFloat.is_nan (Machine.to_float64 (Machine.revenue rec)) = true ->
    PrimFloat.is_nan (Machine.aov rec) = true)).
Proof.
  intros Hd Hrec. apply (machine_daily_In mtx d rec Hd) in Hrec as (dte & _ & ->).
  unfold machine_day_record; simpl.
  set (g := Machine.group _ _ (Some dte)).
  assert (Hpos : 0 <= Machine.agg_count g) by (unfold Machine.agg_count; lia).
  split; [exact Hpos|]. split; [reflexivity|]. split.
  - intros ->. reflexivity.
  - intros Hlt. apply Z.ltb_lt in Hlt. rewrite Hlt. simpl.
    split; [reflexivity|]. unfold Machine.truediv. apply div_nan.
Qed.

Lemma daily_aov_masked_quotient_witness :
  (Machine.daily (col := Machine.float64) scenario_float64 =
     inr [ Machine.mkDaily (midnight (jan 1)) (Machine.of_count 150) 2 (Machine.of_count 75);
           Machine.mkDaily (midnight (jan 2)) (Machine.of_count 0) 1 (Machine.of_count 0) ]) /\
  0 < Machine.orders (Machine.mkDaily (midnight (jan 1)) (Machine.of_count 150) 2
                                      (Machine.of_count 75)) /\
  Machine.of_count 75 = PrimFloat.div (Machine.of_count 150) (Machine.of_count 2).
Proof.
  assert (Hd : Machine.daily (col := Machine.float64) scenario_float64 =
               inr [ Machine.mkDaily (midnight (jan 1)) (Machine.of_count 150) 2
                                     (Machine.of_count 75);
                     Machine.mkDaily (midnight (jan 2)) (Machine.of_count 0) 1
                                     (Machine.of_count 0) ])
    by (vm_compute; reflexivity).
  assert (Hpos : 0 < Machine.orders (Machine.mkDaily (midnight (jan 1)) (Machine.of_count 150)
                                                     2 (Machine.of_count 75)))
    by (simpl; lia).
  split; [exact Hd|]. split; [exact Hpos|].
  exact (proj1 (proj2 (proj2 (proj2
           (daily_aov_masked_quotient (col := Machine.float64) scenario_float64 _ _ Hd
                                      (or_introl eq_refl)))) Hpos)).
Defined.

(** With +inf and -inf on one day the record has two orders and no average
    order value: "defined if and only if orders > 0" fails.  With one row
    whose amount is NaN the record has no orders, and the quotient of its
    row, a division by 0, is evaluated (and is NaN). *)
Lemma aov_defined_iff_orders_counterexample :
  (exists rec,
      Machine.daily (col := Machine.float64) inf_rows = inr [rec] /\
      Machine.orders rec = 2 /\
      PrimFloat.is_nan (Machine.aov rec) = true /\
      ~ (PrimFloat.is_nan (Machine.aov rec) = false <-> 0 < Machine.orders rec)) /\
  (exists rec,
      Machine.daily (col := Machine.float64) nan_rows = inr [rec] /\
      Machine.orders rec = 0 /\
      Machine.of_count (Machine.orders rec) = PrimFloat.zero /\
      PrimFloat.is_nan (Machine.truediv (col := Machine.float64) (Machine.revenue rec)
                                        (Machine.orders rec)) = true).
Proof.
  split.
  - exists (Machine.mkDaily (midnight (jan 1)) PrimFloat.nan 2 PrimFloat.nan).
    split; [vm_compute; reflexivity|]. split; [reflexivity|].
    split; [reflexivity|]. simpl. intros [_ Hdef].
    assert (Hpos : 0 < 2) by lia. specialize (Hdef Hpos). discriminate Hdef.
  - exists (Machine.mkDaily (midnight (jan 1)) PrimFloat.zero 0 PrimFloat.nan).
    split; [vm_compute; reflexivity|]. repeat split; reflexivity.
Qed.

(** The sums that the exact model misses: an int64 sum wraps around, and
    the quotient of an int64 revenue is rounded to a float64. *)
Example int64_sum_wraps :
  Machine.daily (col := Machine.int64) overflow_rows =
  inr [Machine.mkDaily (midnight (jan 1)) (-2) 2 (PrimFloat.opp PrimFloat.one)].
Proof. vm_compute; reflexivity. Qed.

Example int64_quotient_rounds :
  Machine.daily (col := Machine.int64) big_rows =
  inr [Machine.mkDaily (midnight (jan 1)) 9007199254740993 1
                       (Machine.of_count 9007199254740992)].
Proof. vm_compute; reflexivity. Qed.

(** C5.  When the merchant has rows but none with a date that parses, the
    daily aggregate is empty and lines 154-155 give NaT for both bounds;
    they raise nothing, and the script goes on to call the date widget with
    NaT bounds, so that the run ends as that call does.  When some row has a
    date that parses and every parsed date is one that [datetime.date] can
    hold, the aggregate is not empty and both bounds are dates of its
    records.  When some parsed date cannot be held, line 139 raises and no
    bounds are taken. *)
Theorem date_bounds_of_merchant_rows {num : Type} {col : Machine.Column num}
        (mtx : list (Machine.Row num))
        (date_input : option date -> option date -> Machine.WidgetResult) :
  (mtx <> [] -> (forall r, In r mtx -> Machine.transaction_date r = None) ->
   Machine.daily mtx = inr [] /\
   Machine.date_bounds mtx = inr (None, None) /\
   Machine.dashboard mtx date_input = Machine.after_widget [] (date_input None None)) /\
  ((exists r, In r mtx /\ Machine.transaction_date r <> None) ->
   (forall r t, In r mtx -> Machine.transaction_date r = Some t ->
                Machine.representable (ts_date t) = true) ->
   exists d lo hi,
     Machine.daily mtx = inr d /\ d <> [] /\
     Machine.date_bounds mtx = inr (Some lo, Some hi) /\
     In (midnight lo) (map Machine.date_ d) /\
     In (midnight hi) (map Machine.date_ d)) /\
  ((exists r t, In r mtx /\ Machine.transaction_date r = Some t /\
                Machine.representable (ts_date t) = false) ->
   Machine.date_bounds mtx = inl Machine.ValueError_date).
Proof.
  split; [|split].
  - intros _ Hall.
    destruct (Machine.daily mtx) as [e|d] eqn:Hd.
    + exfalso. pose proof (machine_daily_inl mtx e Hd) as ->.
      apply machine_daily_raises_iff in Hd as (r & t & Hr & Et & _).
      rewrite (Hall r Hr) in Et; discriminate.
    + assert (E : d = []) by (apply (machine_daily_empty_iff mtx d Hd); exact Hall).
      subst d. unfold Machine.date_bounds, Machine.dashboard. rewrite Hd.
      repeat split; reflexivity.
  - intros (r & Hr & Hdate) Hrep.
    destruct (Machine.daily mtx) as [e|d] eqn:Hd.
    + exfalso. pose proof (machine_daily_inl mtx e Hd) as ->.
      apply machine_daily_raises_iff in Hd as (r' & t & Hr' & Et & Hbad).
      rewrite (Hrep r' t Hr' Et) in Hbad; discriminate.
    + assert (Hne : d <> []).
      { intros E. apply Hdate. now apply (proj1 (machine_daily_empty_iff mtx d Hd) E). }
      assert (Hne' : map Machine.date_ d <> []).
      { intros E; apply map_eq_nil in E; contradiction. }
      destruct (series_min_nonempty _ Hne') as [lo Hlo].
      destruct (series_max_nonempty _ Hne') as [hi Hhi].
      exists d, (ts_date lo), (ts_date hi).
      split; [reflexivity|]. split; [exact Hne|]. split.
      * unfold Machine.date_bounds, Machine.min_date, Machine.max_date.
        now rewrite Hd, Hlo, Hhi.
      * apply series_min_lower in Hlo as [Hlo _].
        apply series_max_upper in Hhi as [Hhi _].
        rewrite <- (machine_daily_midnight mtx d lo Hd Hlo).
        rewrite <- (machine_daily_midnight mtx d hi Hd Hhi). auto.
  - intros Hbad. unfold Machine.date_bounds.
    now rewrite (proj2 (machine_daily_raises_iff mtx) Hbad).
Qed.

Lemma date_bounds_of_merchant_rows_witness :
  (undated_rows <> [] /\
   (forall r, In r undated_rows -> Machine.transaction_date r = None) /\
   Machine.date_bounds (col := Machine.float64) undated_rows = inr (None, None)) /\
  ((exists r, In r scenario_float64 /\ Machine.transaction_date r <> None) /\
   (forall r t, In r scenario_float64 -> Machine.transaction_date r = Some t ->
                Machine.representable (ts_date t) = true) /\
   exists d lo hi,
     Machine.daily (col := Machine.float64) scenario_float64 = inr d /\ d <> [] /\
     Machine.date_bounds (col := Machine.float64) scenario_float64 = inr (Some lo, Some hi) /\
     In (midnight lo) (map Machine.date_ d) /\
     In (midnight hi) (map Machine.date_ d)) /\
  ((exists r t, In r year0_rows /\ Machine.transaction_date r = Some t /\
                Machine.representable (ts_date t) = false) /\
   Machine.date_bounds (col := Machine.float64) year0_rows = inl Machine.ValueError_date).
Proof.
  split; [|split].
  - assert (Hne : undated_rows <> []) by discriminate.
    assert (Hall : forall r, In r undated_rows -> Machine.transaction_date r = None).
    { intros r [<-|[]]; reflexivity. }
    split; [exact Hne|]. split; [exact Hall|].
    exact (proj1 (proj2 (proj1 (date_bounds_of_merchant_rows (col := Machine.float64)
                                  undated_rows default_answer) Hne Hall))).
  - assert (Hsome : exists r, In r scenario_float64 /\ Machine.transaction_date r <> None).
    { exists (Machine.mkRow (at_noon (jan 1)) (Machine.of_count 100)).
      split; [left; reflexivity | discriminate]. }
    assert (Hrep : forall r t, In r scenario_float64 ->
                               Machine.transaction_date r = Some t ->
                               Machine.representable (ts_date t) = true).
    { intros r t [<-|[<-|[<-|[]]]] [= <-]; reflexivity. }
    split; [exact Hsome|]. split; [exact Hrep|].
    exact (proj1 (proj2 (date_bounds_of_merchant_rows (col := Machine.float64)
                           scenario_float64 default_answer)) Hsome Hrep).
  - assert (Hbad : exists r t, In r year0_rows /\ Machine.transaction_date r = Some t /\
                               Machine.representable (ts_date t) = false).
    { exists (Machine.mkRow (at_noon (mkDate 0 1 1)) (Machine.of_count 5)),
             (mkTimestamp (mkDate 0 1 1) 43200).
      split; [right; left; reflexivity | split; reflexivity]. }
    split; [exact Hbad|].
    exact (proj2 (proj2 (date_bounds_of_merchant_rows (col := Machine.float64)
                           year0_rows default_answer)) Hbad).
Defined.

(** For the one-row table whose date did not parse, lines 137-155 return
    NaT for both bounds and raise nothing; and for a table with a parsed date
    in the year 0 they raise although another row has an ordinary date. *)
Lemma extraction_raises_counterexample :
  (undated_rows <> [] /\
   (forall r, In r undated_rows -> Machine.transaction_date r = None) /\
   Machine.date_bounds (col := Machine.float64) undated_rows = inr (None, None) /\
   ~ (exists e, Machine.date_bounds (col := Machine.float64) undated_rows = inl e)) /\
  ((exists r, In r year0_rows /\ Machine.transaction_date r = at_noon (jan 1)) /\
   Machine.date_bounds (col := Machine.float64) year0_rows = inl Machine.ValueError_date).
Proof.
  split.
  - split; [discriminate|]. split; [intros r [<-|[]]; reflexivity|].
    split; [reflexivity|]. intros [e He]. vm_compute in He. discriminate He.
  - split; [|reflexivity].
    exists (Machine.mkRow (at_noon (jan 1)) (Machine.of_count 10)).
    split; [left; reflexivity | reflexivity].
Qed.

(** X14.  When the aggregate is produced and is not empty, the bounds
    offered to the date widget are dates of its records; if the operator
    leaves the widget at its default, so that it returns the two bounds, the
    dashboard shows every record of the aggregate.  If the widget raises, or
    returns a tuple that is not a pair, the run ends in that exception. *)
Theorem dashboard_by_widget_answer {num : Type} {col : Machine.Column num}
        (mtx : list (Machine.Row num)) (d : list (Machine.DailyRow num))
        (lo hi : date)
        (date_input : option date -> option date -> Machine.WidgetResult) :
  Machine.daily mtx = inr d ->
  Machine.min_date d = Some lo -> Machine.max_date d = Some hi ->
  In (midnight lo) (map Machine.date_ d) /\ In (midnight hi) (map Machine.date_ d) /\
  (date_input (Some lo) (Some hi) = Machine.Widget_returns [lo; hi] ->
   Machine.dashboard mtx date_input = inr d) /\
  (date_input (Some lo) (Some hi) = Machine.Widget_raises ->
   Machine.dashboard mtx date_input = inl Machine.Widget_error) /\
  (forall value, date_input (Some lo) (Some hi) = Machine.Widget_returns value ->
                 List.length value <> 2%nat ->
                 Machine.dashboard mtx date_input = inl Machine.ValueError_unpack).
Proof.
  intros Hd Hmin Hmax. unfold Machine.dashboard. rewrite Hd, Hmin, Hmax.
  split; [|split; [|split; [|split]]].
  - unfold Machine.min_date in Hmin.
    destruct (series_min (map Machine.date_ d)) as [t|] eqn:E; [|discriminate].
    injection Hmin as <-. apply series_min_lower in E as [Hin _].
    now rewrite <- (machine_daily_midnight mtx d t Hd Hin).
  - unfold Machine.max_date in Hmax.
    destruct (series_max (map Machine.date_ d)) as [t|] eqn:E; [|discriminate].
    injection Hmax as <-. apply series_max_upper in E as [Hin _].
    now rewrite <- (machine_daily_midnight mtx d t Hd Hin).
  - intros ->. simpl. now rewrite machine_range_filter_bounds_id.
  - intros ->. reflexivity.
  - intros value -> Hlen. destruct value as [|a [|b [|c v]]]; simpl in *;
      try reflexivity. congruence.
Qed.

Lemma dashboard_by_widget_answer_witness :
  exists d,
    Machine.daily (col := Machine.float64) scenario_float64 = inr d /\
    Machine.min_date d = Some (jan 1) /\ Machine.max_date d = Some (jan 2) /\
    default_answer (Some (jan 1)) (Some (jan 2)) = Machine.Widget_returns [jan 1; jan 2] /\
    Machine.dashboard (col := Machine.float64) scenario_float64 default_answer = inr d.
Proof.
  exists [ Machine.mkDaily (midnight (jan 1)) (Machine.of_count 150) 2 (Machine.of_count 75);
           Machine.mkDaily (midnight (jan 2)) (Machine.of_count 0) 1 (Machine.of_count 0) ].
  assert (Hd : Machine.daily (col := Machine.float64) scenario_float64 =
               inr [ Machine.mkDaily (midnight (jan 1)) (Machine.of_count 150) 2
                                     (Machine.of_count 75);
                     Machine.mkDaily (midnight (jan 2)) (Machine.of_count 0) 1
                                     (Machine.of_count 0) ])
    by (vm_compute; reflexivity).
  assert (Hmin : Machine.min_date
                   [ Machine.mkDaily (midnight (jan 1)) (Machine.of_count 150) 2
                                     (Machine.of_count 75);
                     Machine.mkDaily (midnight (jan 2)) (Machine.of_count 0) 1
                                     (Machine.of_count 0) ] = Some (jan 1))
    by reflexivity.
  assert (Hmax : Machine.max_date
                   [ Machine.mkDaily (midnight (jan 1)) (Machine.of_count 150) 2
                                     (Machine.of_count 75);
                     Machine.mkDaily (midnight (jan 2)) (Machine.of_count 0) 1
                                     (Machine.of_count 0) ] = Some (jan 2))
    by reflexivity.
  assert (Hans : default_answer (Some (jan 1)) (Some (jan 2)) =
                 Machine.Widget_returns [jan 1; jan 2]) by reflexivity.
  split; [exact Hd|]. split; [exact Hmin|]. split; [exact Hmax|].
  split; [exact Hans|].
  exact (proj1 (proj2 (proj2
           (dashboard_by_widget_answer (col := Machine.float64) scenario_float64 _
              (jan 1) (jan 2) default_answer Hd Hmin Hmax))) Hans).
Defined.

(** The operator picked one date only: the unpacking fails. *)
Example dashboard_one_date :
  Machine.dashboard (col := Machine.float64) scenario_float64 one_date_answer =
  inl Machine.ValueError_unpack.
Proof. vm_compute; reflexivity. Qed.
